(** * Smart home hub: a shallow embedding of [smart_home_system.py]

    The Python program keeps mutable objects (devices, proxies, the hub)
    that alias one another and it signals failures with exceptions.  The
    embedding therefore threads an explicit program state through every
    method: a store of device objects, a store of proxy objects, the three
    attributes of the hub, and the trace of everything the program printed
    or delivered to an observer.  Exceptions are a second outcome of every
    computation, and the state reached when the exception is raised is
    kept, as in Python. *)

From stdpp Require Import base tactics option list strings pretty.
From Stdlib Require Import ZArith Ascii.

Open Scope string_scope.

(** ** Python values *)

(** The values the callers of the hub pass around: [None], integers and
    strings.  Device identifiers, initial states and temperatures are such
    values. *)
Inductive pyval : Type :=
  | VNone
  | VInt (z : Z)
  | VStr (s : string).

#[global] Instance pyval_eq_dec : EqDecision pyval.
Proof. solve_decision. Defined.

(** [str v] is what an f-string substitutes for [{v}]. *)
Definition str (v : pyval) : string :=
  match v with
  | VNone => "None"
  | VInt z => pretty z
  | VStr s => s
  end.

(** ** Exceptions *)

(** The exception classes that occur.  [SystemExit] and
    [KeyboardInterrupt] derive from [BaseException] only, the others from
    [Exception]; the difference matters to [except Exception]. *)
Inductive exn_class : Type :=
  | AttributeError | ValueError | TypeError | NameError | SyntaxError
  | SystemExit | KeyboardInterrupt.

#[global] Instance exn_class_eq_dec : EqDecision exn_class.
Proof. solve_decision. Defined.

Record exn : Type := mk_exn { exn_cls : exn_class; exn_msg : string }.

#[global] Instance exn_eq_dec : EqDecision exn.
Proof. solve_decision. Defined.

Definition is_Exception (e : exn) : bool :=
  match exn_cls e with
  | SystemExit | KeyboardInterrupt => false
  | _ => true
  end.

(** The error Python raises for [x.attr] when the class of [x] has no
    such attribute. *)
Definition no_attribute (cls attr : string) : exn :=
  mk_exn AttributeError ("'" ++ cls ++ "' object has no attribute '" ++ attr ++ "'").

(** ** Objects *)

(** Observers are compared by identity ([Observer] defines no [__eq__]),
    so an observer is its address. *)
Definition observer : Type := nat.

(** What the outside world sees: a printed line, or a call
    [observer.update(message)]. *)
Inductive event : Type :=
  | Printed (line : string)
  | Updated (o : observer) (message : string).

#[global] Instance event_eq_dec : EqDecision event.
Proof. solve_decision. Defined.

(** The three concrete classes with the state each one adds to [Device]. *)
Inductive variant : Type :=
  | Light (status : string)
  | Thermostat (temperature : pyval)
  | DoorLock (status : string).

#[global] Instance variant_eq_dec : EqDecision variant.
Proof. solve_decision. Defined.

Record Device : Type := mk_Device {
  device_id : pyval;
  device_type : string;
  observers : list observer;
  variant_of : variant
}.

#[global] Instance Device_eq_dec : EqDecision Device.
Proof. solve_decision. Defined.

Definition class_name (d : Device) : string :=
  match variant_of d with
  | Light _ => "Light"
  | Thermostat _ => "Thermostat"
  | DoorLock _ => "DoorLock"
  end.

Definition with_observers (l : list observer) (d : Device) : Device :=
  mk_Device (device_id d) (device_type d) l (variant_of d).

Definition with_variant (v : variant) (d : Device) : Device :=
  mk_Device (device_id d) (device_type d) (observers d) v.

(** A value of [hub.devices]: [None], a reference to a device object, or a
    reference to a [DeviceProxy] object.  Which one it is decides how a
    method call on it is resolved. *)
Inductive py_obj : Type :=
  | ONone
  | ODevice (a : nat)
  | OProxy (p : nat).

#[global] Instance py_obj_eq_dec : EqDecision py_obj.
Proof. solve_decision. Defined.

(** The dictionaries appended to [scheduled_tasks] and
    [automated_triggers]; their keys are fixed by [set_schedule] and
    [add_trigger]. *)
Record task : Type := mk_task {
  task_device : pyval;
  task_time : string;
  task_action : string
}.

Record trigger : Type := mk_trigger {
  trigger_condition : string;
  trigger_action : string
}.

#[global] Instance task_eq_dec : EqDecision task.
Proof. solve_decision. Defined.

#[global] Instance trigger_eq_dec : EqDecision trigger.
Proof. solve_decision. Defined.

(** ** Dictionaries that remember insertion order *)

Module Dict.
Section Ops.
Context {V : Type}.

Fixpoint get (k : pyval) (d : list (pyval * V)) : option V :=
  match d with
  | [] => None
  | (k', v) :: r => if decide (k = k') then Some v else get k r
  end.

(** [d[k] = v]: an existing key keeps its place, a new key goes last. *)
Fixpoint set (k : pyval) (v : V) (d : list (pyval * V)) : list (pyval * V) :=
  match d with
  | [] => [(k, v)]
  | (k', v') :: r =>
      if decide (k = k') then (k', v) :: r else (k', v') :: set k v r
  end.

(** [del d[k]], for a key that is present. *)
Fixpoint del (k : pyval) (d : list (pyval * V)) : list (pyval * V) :=
  match d with
  | [] => []
  | (k', v') :: r =>
      if decide (k = k') then r else (k', v') :: del k r
  end.

Definition keys (d : list (pyval * V)) : list pyval := d.*1.
End Ops.
End Dict.

(** ** Program state *)

Record state : Type := mk_state {
  device_store : list Device;      (* the device objects, by address *)
  proxy_store : list nat;          (* the proxies: each holds [self.device] *)
  devices : list (pyval * py_obj); (* hub.devices *)
  scheduled_tasks : list task;     (* hub.scheduled_tasks *)
  automated_triggers : list trigger; (* hub.automated_triggers *)
  output : list event              (* oldest event first *)
}.

(** [SmartHomeHub()] in a fresh interpreter. *)
Definition new_hub : state := mk_state [] [] [] [] [] [].

Definition with_device_store (x : list Device) (s : state) : state :=
  mk_state x (proxy_store s) (devices s) (scheduled_tasks s)
           (automated_triggers s) (output s).

Definition with_proxy_store (x : list nat) (s : state) : state :=
  mk_state (device_store s) x (devices s) (scheduled_tasks s)
           (automated_triggers s) (output s).

Definition with_devices (x : list (pyval * py_obj)) (s : state) : state :=
  mk_state (device_store s) (proxy_store s) x (scheduled_tasks s)
           (automated_triggers s) (output s).

Definition with_scheduled_tasks (x : list task) (s : state) : state :=
  mk_state (device_store s) (proxy_store s) (devices s) x
           (automated_triggers s) (output s).

Definition with_automated_triggers (x : list trigger) (s : state) : state :=
  mk_state (device_store s) (proxy_store s) (devices s) (scheduled_tasks s)
           x (output s).

Definition with_output (x : list event) (s : state) : state :=
  mk_state (device_store s) (proxy_store s) (devices s) (scheduled_tasks s)
           (automated_triggers s) x.

(** ** Computations *)

(** [Stuck] is not a Python outcome: it marks a run of the model that
    followed an address the store does not hold, or assigned an attribute
    through a method the object's class does not have.  The methods of
    the hub never build a state with such an address (see [hub_ok]). *)
Inductive outcome (A : Type) : Type :=
  | Return (a : A)
  | Raise (e : exn)
  | Stuck.
Arguments Return {A} a.
Arguments Raise {A} e.
Arguments Stuck {A}.

Definition M (A : Type) : Type := state -> outcome A * state.

Definition ret {A} (a : A) : M A := fun s => (Return a, s).
Definition raise {A} (e : exn) : M A := fun s => (Raise e, s).
Definition stuck {A} : M A := fun s => (Stuck, s).

Definition bind {A B} (m : M A) (k : A -> M B) : M B :=
  fun s =>
    match m s with
    | (Return a, s') => k a s'
    | (Raise e, s') => (Raise e, s')
    | (Stuck, s') => (Stuck, s')
    end.

Notation "'let!' x ':=' m 'in' k" := (bind m (fun x => k))
  (at level 10, x pattern, m at level 100, k at level 200).
Notation "m ';;' k" := (bind m (fun _ => k))
  (at level 100, k at level 200, right associativity).

Definition emit (ev : event) : M unit :=
  fun s => (Return tt, with_output (output s ++ [ev]) s).

Definition print (line : string) : M unit := emit (Printed line).

Definition get_device (a : nat) : M Device :=
  fun s =>
    match device_store s !! a with
    | Some d => (Return d, s)
    | None => (Stuck, s)
    end.

Definition put_device (a : nat) (d : Device) : M unit :=
  fun s => (Return tt, with_device_store (<[a := d]> (device_store s)) s).

(** Allocation of a device object: the next free address. *)
Definition new_device (d : Device) : M nat :=
  fun s => (Return (length (device_store s)),
            with_device_store (device_store s ++ [d]) s).

Definition get_proxy (p : nat) : M nat :=
  fun s =>
    match proxy_store s !! p with
    | Some a => (Return a, s)
    | None => (Stuck, s)
    end.

(** [DeviceProxy(device)]. *)
Definition new_proxy (a : nat) : M nat :=
  fun s => (Return (length (proxy_store s)),
            with_proxy_store (proxy_store s ++ [a]) s).

(** [self.status] and [self.status = st]. *)
Definition get_status (self : nat) : M string :=
  let! d := get_device self in
  match variant_of d with
  | Light st | DoorLock st => ret st
  | Thermostat _ => raise (no_attribute "Thermostat" "status")
  end.

Definition set_status (self : nat) (st : string) : M unit :=
  let! d := get_device self in
  match variant_of d with
  | Light _ => put_device self (with_variant (Light st) d)
  | DoorLock _ => put_device self (with_variant (DoorLock st) d)
  | Thermostat _ => stuck
  end.

(** [self.temperature] and [self.temperature = t]. *)
Definition get_temperature (self : nat) : M pyval :=
  let! d := get_device self in
  match variant_of d with
  | Thermostat t => ret t
  | Light _ | DoorLock _ => raise (no_attribute (class_name d) "temperature")
  end.

Definition set_temperature_attr (self : nat) (t : pyval) : M unit :=
  let! d := get_device self in
  match variant_of d with
  | Thermostat _ => put_device self (with_variant (Thermostat t) d)
  | Light _ | DoorLock _ => stuck
  end.

(** ** class Device *)

Module Device.
Definition add_observer (self : nat) (o : observer) : M unit :=
  let! d := get_device self in
  put_device self (with_observers (observers d ++ [o]) d).

(** [list.remove(x)]: drops the first occurrence. *)
Fixpoint list_remove (o : observer) (l : list observer) : list observer :=
  match l with
  | [] => []
  | x :: r => if decide (x = o) then r else x :: list_remove o r
  end.

Definition remove_observer (self : nat) (o : observer) : M unit :=
  let! d := get_device self in
  if decide (o ∈ observers d)
  then put_device self (with_observers (list_remove o (observers d)) d)
  else raise (mk_exn ValueError "list.remove(x): x not in list").

Fixpoint update_each (l : list observer) (message : string) : M unit :=
  match l with
  | [] => ret tt
  | o :: r => emit (Updated o message) ;; update_each r message
  end.

Definition notify_observers (self : nat) (message : string) : M unit :=
  let! d := get_device self in
  update_each (observers d) message.
End Device.

(** ** class Light *)

Module Light.
Definition init (device_id : pyval) : M nat :=
  new_device (mk_Device device_id "light" [] (Light "off")).

Definition turn_on (self : nat) : M unit :=
  set_status self "on" ;;
  let! status := get_status self in
  Device.notify_observers self ("Light is turned on (" ++ status ++ ")").

Definition turn_off (self : nat) : M unit :=
  set_status self "off" ;;
  let! status := get_status self in
  Device.notify_observers self ("Light is turned off (" ++ status ++ ")").

Definition status_report (self : nat) : M string :=
  let! d := get_device self in
  let! status := get_status self in
  ret ("Light " ++ str (device_id d) ++ " is " ++ status ++ ".").
End Light.

(** ** class Thermostat *)

Module Thermostat.
Definition init (device_id : pyval) : M nat :=
  new_device (mk_Device device_id "thermostat" [] (Thermostat (VInt 70))).

Definition set_temperature (self : nat) (temperature : pyval) : M unit :=
  set_temperature_attr self temperature ;;
  let! t := get_temperature self in
  Device.notify_observers self
    ("Thermostat temperature set to " ++ str t ++ " degrees").

Definition status_report (self : nat) : M string :=
  let! t := get_temperature self in
  ret ("Thermostat is set to " ++ str t ++ " degrees.").
End Thermostat.

(** ** class DoorLock *)

Module DoorLock.
Definition init (device_id : pyval) : M nat :=
  new_device (mk_Device device_id "door" [] (DoorLock "locked")).

Definition lock (self : nat) : M unit :=
  set_status self "locked" ;;
  Device.notify_observers self "Door is locked".

Definition unlock (self : nat) : M unit :=
  set_status self "unlocked" ;;
  Device.notify_observers self "Door is unlocked".

Definition status_report (self : nat) : M string :=
  let! status := get_status self in
  ret ("Door is " ++ status ++ ".").
End DoorLock.

(** ** Method calls on a device object

    [device.m(...)] looks the method up in the class of the object: a
    class that does not define [m] raises [AttributeError]. *)
Module Call.
Definition turn_on (a : nat) : M unit :=
  let! d := get_device a in
  match variant_of d with
  | Light _ => Light.turn_on a
  | _ => raise (no_attribute (class_name d) "turn_on")
  end.

Definition turn_off (a : nat) : M unit :=
  let! d := get_device a in
  match variant_of d with
  | Light _ => Light.turn_off a
  | _ => raise (no_attribute (class_name d) "turn_off")
  end.

Definition status_report (a : nat) : M string :=
  let! d := get_device a in
  match variant_of d with
  | Light _ => Light.status_report a
  | Thermostat _ => Thermostat.status_report a
  | DoorLock _ => DoorLock.status_report a
  end.

Definition isinstance_Thermostat (d : Device) : bool :=
  match variant_of d with Thermostat _ => true | _ => false end.

Definition isinstance_DoorLock (d : Device) : bool :=
  match variant_of d with DoorLock _ => true | _ => false end.
End Call.

(** ** class DeviceProxy *)

Module DeviceProxy.
Definition turn_on (self : nat) : M unit :=
  let! a := get_proxy self in
  Call.turn_on a.

Definition turn_off (self : nat) : M unit :=
  let! a := get_proxy self in
  Call.turn_off a.

Definition set_temperature (self : nat) (temperature : pyval) : M unit :=
  let! a := get_proxy self in
  let! d := get_device a in
  if Call.isinstance_Thermostat d
  then Thermostat.set_temperature a temperature
  else print "This device does not support temperature control.".

Definition lock (self : nat) : M unit :=
  let! a := get_proxy self in
  let! d := get_device a in
  if Call.isinstance_DoorLock d
  then DoorLock.lock a
  else print "This device does not support locking.".

Definition unlock (self : nat) : M unit :=
  let! a := get_proxy self in
  let! d := get_device a in
  if Call.isinstance_DoorLock d
  then DoorLock.unlock a
  else print "This device does not support unlocking.".

Definition status_report (self : nat) : M string :=
  let! a := get_proxy self in
  Call.status_report a.
End DeviceProxy.

(** ** Method calls on a value of [hub.devices] *)

Module Obj.
Definition turn_on (o : py_obj) : M unit :=
  match o with
  | ONone => raise (no_attribute "NoneType" "turn_on")
  | ODevice a => Call.turn_on a
  | OProxy p => DeviceProxy.turn_on p
  end.

Definition turn_off (o : py_obj) : M unit :=
  match o with
  | ONone => raise (no_attribute "NoneType" "turn_off")
  | ODevice a => Call.turn_off a
  | OProxy p => DeviceProxy.turn_off p
  end.

Definition status_report (o : py_obj) : M string :=
  match o with
  | ONone => raise (no_attribute "NoneType" "status_report")
  | ODevice a => Call.status_report a
  | OProxy p => DeviceProxy.status_report p
  end.

(** [o.device_type]: an attribute of [Device] objects only. *)
Definition get_device_type (o : py_obj) : M string :=
  match o with
  | ONone => raise (no_attribute "NoneType" "device_type")
  | ODevice a => let! d := get_device a in ret (device_type d)
  | OProxy _ => raise (no_attribute "DeviceProxy" "device_type")
  end.
End Obj.

(** ** References to the hub's lists

    A caller holds a Python list by reference.  The reference is either to
    the list object that a hub attribute holds, or to a list object of the
    caller's own (a copy, say), whose contents travel with the reference. *)
Inductive list_ref (A : Type) : Type :=
  | HubList
  | OwnList (l : list A).
Arguments HubList {A}.
Arguments OwnList {A} l.

Section ListRef.
Context {A : Type}.
(** The hub attribute the reference stands for. *)
Variable attr : state -> list A.
Variable with_attr : list A -> state -> state.

Definition ref_contents (r : list_ref A) (s : state) : list A :=
  match r with
  | HubList => attr s
  | OwnList l => l
  end.

(** [r.append(x)] by a caller; the caller keeps the reference. *)
Definition ref_append (r : list_ref A) (x : A) (s : state)
  : list_ref A * state :=
  match r with
  | HubList => (HubList, with_attr (attr s ++ [x]) s)
  | OwnList l => (OwnList (l ++ [x]), s)
  end.

(** [r.clear()] by a caller. *)
Definition ref_clear (r : list_ref A) (s : state) : list_ref A * state :=
  match r with
  | HubList => (HubList, with_attr [] s)
  | OwnList _ => (OwnList [], s)
  end.
End ListRef.

(** ** class SmartHomeHub *)

Module SmartHomeHub.
Definition contains (device_id : pyval) : M bool :=
  fun s => (Return (bool_decide (is_Some (Dict.get device_id (devices s)))), s).

Definition set_item (device_id : pyval) (o : py_obj) : M unit :=
  fun s => (Return tt, with_devices (Dict.set device_id o (devices s)) s).

(** [self.devices[device_id]], reached only after the [in] test. *)
Definition get_item (device_id : pyval) : M py_obj :=
  fun s =>
    match Dict.get device_id (devices s) with
    | Some o => (Return o, s)
    | None => (Stuck, s)
    end.

Definition del_item (device_id : pyval) : M unit :=
  fun s => (Return tt, with_devices (Dict.del device_id (devices s)) s).

(** A [return] without a value yields [None]; the proxy is returned as
    the value [OProxy p]. *)
Definition create_device (device_id : pyval) (device_type : string)
    (initial_status initial_temperature : pyval) : M py_obj :=
  let! present := contains device_id in
  if present : bool then
    print ("Device with ID " ++ str device_id ++ " already exists.") ;;
    ret ONone
  else
    let! device :=
      if decide (device_type = "light") then
        Light.init device_id
      else if decide (device_type = "thermostat") then
        let! device := Thermostat.init device_id in
        (if decide (initial_temperature = VNone) then ret tt
         else Thermostat.set_temperature device initial_temperature) ;;
        ret device
      else if decide (device_type = "door") then
        let! device := DoorLock.init device_id in
        (if decide (initial_status = VNone) then ret tt
         else if decide (initial_status = VStr "locked") then
           DoorLock.lock device
         else if decide (initial_status = VStr "unlocked") then
           DoorLock.unlock device
         else ret tt) ;;
        ret device
      else raise (mk_exn ValueError "Invalid device type")
    in
    set_item device_id (ODevice device) ;;
    let! p := new_proxy device in
    ret (OProxy p).

Definition not_found (device_id : pyval) : M unit :=
  print ("Device with ID " ++ str device_id ++ " not found.").

Definition turn_on (device_id : pyval) : M unit :=
  let! present := contains device_id in
  if present : bool then
    let! o := get_item device_id in
    Obj.turn_on o
  else not_found device_id.

Definition turn_off (device_id : pyval) : M unit :=
  let! present := contains device_id in
  if present : bool then
    let! o := get_item device_id in
    Obj.turn_off o
  else not_found device_id.

Definition set_schedule (device_id : pyval) (time action : string) : M unit :=
  (fun s => (Return tt,
             with_scheduled_tasks
               (scheduled_tasks s ++ [mk_task device_id time action]) s)) ;;
  print ("Scheduled Task: [" ++ time ++ "] - " ++ action).

Definition add_trigger (condition action : string) : M unit :=
  (fun s => (Return tt,
             with_automated_triggers
               (automated_triggers s ++ [mk_trigger condition action]) s)) ;;
  print ("Automated Trigger: [" ++ condition ++ "] - " ++ action).

Definition add_device (device_id : pyval) (device_type : string)
    (initial_status initial_temperature : pyval) : M unit :=
  let! present := contains device_id in
  if present : bool then
    print ("Device with ID " ++ str device_id ++ " already exists.")
  else
    let! device :=
      create_device device_id device_type initial_status initial_temperature in
    set_item device_id device ;;
    print ("Added new " ++ device_type ++ " with ID " ++ str device_id ++ ".").

Definition remove_device (device_id : pyval) : M unit :=
  let! present := contains device_id in
  if present : bool then
    let! device := get_item device_id in
    del_item device_id ;;
    let! ty := Obj.get_device_type device in
    print ("Removed " ++ ty ++ " with ID " ++ str device_id ++ ".")
  else not_found device_id.

(** The loop of [status_report]: one report per entry, in the order of
    the dictionary. *)
Fixpoint reports (entries : list (pyval * py_obj)) : M (list string) :=
  match entries with
  | [] => ret []
  | (_, device) :: rest =>
      let! r := Obj.status_report device in
      let! rs := reports rest in
      ret (r :: rs)
  end.

Definition status_report : M string :=
  let! report := (fun s => reports (devices s) s) in
  ret (String.concat " " report).

Definition get_scheduled_tasks : M (list_ref task) := ret HubList.

Definition get_automated_triggers : M (list_ref trigger) := ret HubList.

(** *** The scheduler

    [eval] runs arbitrary Python text, so the evaluator is a parameter:
    [py_eval src] is the computation that [eval(src)] performs on the
    program state inside [execute_command].  The clock is the list of
    the values [datetime.now().strftime("%H:%M")] takes, one per pass
    of the [while] loop. *)
Section Scheduler.
Variable py_eval : string -> M unit.

Definition execute_command (command : string) : M unit :=
  fun s =>
    match py_eval ("self." ++ command) s with
    | (Raise e, s') =>
        if is_Exception e
        then print ("Error executing command: " ++ exn_msg e) s'
        else (Raise e, s')
    | r => r
    end.

(** [for task in self.scheduled_tasks] walks the list by position and
    reads it afresh at every step, so it sees what the commands do to
    it; [fuel] bounds the number of steps, [None] is fuel run out.  The
    elements of the list are the dictionaries that [set_schedule] builds:
    [task["time"]] and [task["action"]] are always there.  A list into
    which something else was put is outside the model. *)
Fixpoint for_tasks (fuel : nat) (i : nat) (current_time : string)
    (s : state) : option (outcome unit * state) :=
  match fuel with
  | O => None
  | S fuel' =>
      match scheduled_tasks s !! i with
      | None => Some (Return tt, s)
      | Some task =>
          if decide (task_time task = current_time) then
            match execute_command (task_action task) s with
            | (Return _, s') => for_tasks fuel' (S i) current_time s'
            | r => Some r
            end
          else for_tasks fuel' (S i) current_time s
      end
  end.

(** The [while True] loop, observed for as many passes as the clock
    has readings; [sleep(60)] changes nothing in the state.  The
    Python loop has no exit: [Return] here says that the loop is
    still running after the last reading. *)
Fixpoint run_scheduled_tasks (fuel : nat) (clock : list string)
    (s : state) : option (outcome unit * state) :=
  match clock with
  | [] => Some (Return tt, s)
  | current_time :: later =>
      match for_tasks fuel 0 current_time s with
      | Some (Return _, s') => run_scheduled_tasks fuel later s'
      | r => r
      end
  end.
End Scheduler.
End SmartHomeHub.

(** ** The command texts that are evaluated

    [execute_command] hands [eval] the text [self.<command>].  Python
    would accept any expression there; the model reads the texts that are
    one call on the hub with literal arguments,
    [name(arg, ..., arg)] with [arg] an integer, a string in single
    quotes, [None] or [exit()], and the same texts cut off before the
    closing parenthesis.  Any other text is after without a meaning
    ([python_eval] is [Stuck] on it). *)
Inductive arg : Type :=
  | AInt (z : Z)
  | AStr (s : string)
  | ANone
  | AExit.

Inductive command : Type :=
  | Call (name : string) (args : list arg)
  | Unclosed (name : string) (args : list arg).

Module Text.
Definition code (c : ascii) : nat := nat_of_ascii c.

Definition is_digit (c : ascii) : bool :=
  (48 <=? code c)%nat && (code c <=? 57)%nat.

Definition is_letter (c : ascii) : bool :=
  ((65 <=? code c)%nat && (code c <=? 90)%nat)
  || ((97 <=? code c)%nat && (code c <=? 122)%nat).

Definition is_name_char (c : ascii) : bool :=
  is_letter c || is_digit c || (code c =? 95)%nat.

(** What may stand between the quotes of a string: printable ASCII but
    the quote and the backslash. *)
Definition is_plain_char (c : ascii) : bool :=
  (32 <=? code c)%nat && (code c <=? 126)%nat
  && negb (code c =? 39)%nat && negb (code c =? 92)%nat.

Fixpoint span (p : ascii -> bool) (cs : list ascii) : list ascii * list ascii :=
  match cs with
  | c :: rest =>
      if p c then let (taken, after) := span p rest in (c :: taken, after)
      else ([], cs)
  | [] => ([], [])
  end.

Definition number (digits : list ascii) : Z :=
  fold_left (fun n c => (10 * n + Z.of_nat (code c - 48))%Z) digits 0%Z.

(** A decimal literal without leading zeros, of at most 18 digits. *)
Definition parse_digits (cs : list ascii) : option (Z * list ascii) :=
  let (digits, rest) := span is_digit cs in
  match digits with
  | [] => None
  | d :: more =>
      if ((code d =? 48)%nat && negb (length more =? 0)%nat)
         || (18 <? length digits)%nat
      then None
      else Some (number digits, rest)
  end.

Definition keywords : list string :=
  ["False"; "None"; "True"; "and"; "as"; "assert"; "async"; "await"; "break";
   "class"; "continue"; "def"; "del"; "elif"; "else"; "except"; "finally";
   "for"; "from"; "global"; "if"; "import"; "in"; "is"; "lambda"; "nonlocal";
   "not"; "or"; "pass"; "raise"; "return"; "try"; "while"; "with"; "yield"].

Definition parse_arg (cs : list ascii) : option (arg * list ascii) :=
  match cs with
  | [] => None
  | c :: rest =>
      if (code c =? 39)%nat then
        let (body, after) := span is_plain_char rest in
        match after with
        | q :: after' =>
            if (code q =? 39)%nat
            then Some (AStr (String.string_of_list_ascii body), after')
            else None
        | [] => None
        end
      else if (code c =? 45)%nat then
        match parse_digits rest with
        | Some (n, after) => Some (AInt (- n), after)
        | None => None
        end
      else if is_digit c then
        match parse_digits cs with
        | Some (n, after) => Some (AInt n, after)
        | None => None
        end
      else
        let (word, after) := span is_name_char cs in
        if decide (String.string_of_list_ascii word = "None") then Some (ANone, after)
        else if decide (String.string_of_list_ascii word = "exit") then
          match after with
          | o :: p :: after' =>
              if (code o =? 40)%nat && (code p =? 41)%nat
              then Some (AExit, after')
              else None
          | _ => None
          end
        else None
  end.

(** The arguments after the opening parenthesis, up to the end of the
    text: [true] when the text ends with the closing parenthesis, [false]
    when it ends right after an argument. *)
Fixpoint parse_args (fuel : nat) (cs : list ascii) : option (list arg * bool) :=
  match fuel with
  | O => None
  | S fuel' =>
      match parse_arg cs with
      | None => None
      | Some (a, rest) =>
          match rest with
          | [] => Some ([a], false)
          | c :: rest' =>
              if (code c =? 41)%nat then
                match rest' with
                | [] => Some ([a], true)
                | _ :: _ => None
                end
              else if (code c =? 44)%nat then
                let rest'' :=
                  match rest' with
                  | b :: r => if (code b =? 32)%nat then r else rest'
                  | [] => rest'
                  end in
                match parse_args fuel' rest'' with
                | Some (l, closed) => Some (a :: l, closed)
                | None => None
                end
              else None
          end
      end
  end.

Definition parse (text : string) : option command :=
  let (word, rest) := span is_name_char (String.list_ascii_of_string text) in
  let name := String.string_of_list_ascii word in
  match word, rest with
  | c :: _, o :: rest' =>
      if is_letter c && negb (bool_decide (name ∈ keywords)) && (code o =? 40)%nat
      then
        match rest' with
        | [] => Some (Unclosed name [])
        | p :: rest'' =>
            if (code p =? 41)%nat then
              match rest'' with
              | [] => Some (Call name [])
              | _ :: _ => None
              end
            else
              match parse_args (length rest') rest' with
              | Some (l, true) => Some (Call name l)
              | Some (l, false) => Some (Unclosed name l)
              | None => None
              end
        end
      else None
  | _, _ => None
  end.
End Text.

(** The attributes of a hub: its three data attributes and its methods. *)
Definition hub_attributes : list string :=
  ["devices"; "scheduled_tasks"; "automated_triggers"; "create_device";
   "turn_on"; "turn_off"; "set_schedule"; "add_trigger"; "add_device";
   "remove_device"; "run_scheduled_tasks"; "execute_command"; "status_report";
   "get_scheduled_tasks"; "get_automated_triggers"].

(** A call of a method of the hub with its arguments bound.  The calls
    of [execute_command] and [run_scheduled_tasks] from evaluated text,
    calls with another number of arguments and calls of the data
    attributes are not among them. *)
Inductive method_call : Type :=
  | MCreateDevice (device_id : pyval) (device_type : string)
                  (initial_status initial_temperature : pyval)
  | MAddDevice (device_id : pyval) (device_type : string)
               (initial_status initial_temperature : pyval)
  | MRemoveDevice (device_id : pyval)
  | MTurnOn (device_id : pyval)
  | MTurnOff (device_id : pyval)
  | MSetSchedule (device_id : pyval) (time action : string)
  | MAddTrigger (condition action : string)
  | MStatusReport
  | MGetScheduledTasks
  | MGetAutomatedTriggers.

Definition bind_arguments (name : string) (vs : list pyval) : option method_call :=
  if decide (name = "create_device") then
    match vs with
    | [i; VStr ty] => Some (MCreateDevice i ty VNone VNone)
    | [i; VStr ty; st] => Some (MCreateDevice i ty st VNone)
    | [i; VStr ty; st; t] => Some (MCreateDevice i ty st t)
    | _ => None
    end
  else if decide (name = "add_device") then
    match vs with
    | [i; VStr ty] => Some (MAddDevice i ty VNone VNone)
    | [i; VStr ty; st] => Some (MAddDevice i ty st VNone)
    | [i; VStr ty; st; t] => Some (MAddDevice i ty st t)
    | _ => None
    end
  else if decide (name = "remove_device") then
    match vs with [i] => Some (MRemoveDevice i) | _ => None end
  else if decide (name = "turn_on") then
    match vs with [i] => Some (MTurnOn i) | _ => None end
  else if decide (name = "turn_off") then
    match vs with [i] => Some (MTurnOff i) | _ => None end
  else if decide (name = "set_schedule") then
    match vs with
    | [i; VStr time; VStr action] => Some (MSetSchedule i time action)
    | _ => None
    end
  else if decide (name = "add_trigger") then
    match vs with
    | [VStr condition; VStr action] => Some (MAddTrigger condition action)
    | _ => None
    end
  else if decide (name = "status_report") then
    match vs with [] => Some MStatusReport | _ => None end
  else if decide (name = "get_scheduled_tasks") then
    match vs with [] => Some MGetScheduledTasks | _ => None end
  else if decide (name = "get_automated_triggers") then
    match vs with [] => Some MGetAutomatedTriggers | _ => None end
  else None.

(** The call itself; [eval] returns its value and [execute_command]
    drops it. *)
Definition perform (c : method_call) : M unit :=
  match c with
  | MCreateDevice i ty st t => SmartHomeHub.create_device i ty st t ;; ret tt
  | MAddDevice i ty st t => SmartHomeHub.add_device i ty st t
  | MRemoveDevice i => SmartHomeHub.remove_device i
  | MTurnOn i => SmartHomeHub.turn_on i
  | MTurnOff i => SmartHomeHub.turn_off i
  | MSetSchedule i time action => SmartHomeHub.set_schedule i time action
  | MAddTrigger condition action => SmartHomeHub.add_trigger condition action
  | MStatusReport => SmartHomeHub.status_report ;; ret tt
  | MGetScheduledTasks => SmartHomeHub.get_scheduled_tasks ;; ret tt
  | MGetAutomatedTriggers => SmartHomeHub.get_automated_triggers ;; ret tt
  end.

(** The value of an argument; [exit()] has none, it raises. *)
Definition value_of (a : arg) : option pyval :=
  match a with
  | AInt z => Some (VInt z)
  | AStr s => Some (VStr s)
  | ANone => Some VNone
  | AExit => None
  end.

Fixpoint values_of (args : list arg) : option (list pyval) :=
  match args with
  | [] => Some []
  | a :: rest =>
      match value_of a, values_of rest with
      | Some v, Some vs => Some (v :: vs)
      | _, _ => None
      end
  end.

(** How the evaluation of a command goes.  The text is compiled first,
    and a call that is not closed is a [SyntaxError].  Then [self.name]
    is evaluated, and fails when the hub has no such attribute.  Then the
    arguments are evaluated from left to right, where [exit()] raises
    [SystemExit].  Then the method is called. *)
Inductive evaluation : Type :=
  | Malformed
  | Unresolved (name : string)
  | Exits
  | Calls (c : method_call).

Definition evaluation_of (c : command) : option evaluation :=
  match c with
  | Unclosed _ _ => Some Malformed
  | Call name args =>
      if bool_decide (name ∈ hub_attributes) then
        match values_of args with
        | None => Some Exits
        | Some vs =>
            match bind_arguments name vs with
            | Some call => Some (Calls call)
            | None => None
            end
        end
      else Some (Unresolved name)
  end.

(** The evaluation of a command text, [None] for a text outside the
    forms of the model. *)
Definition understood (text : string) : option evaluation :=
  match Text.parse text with
  | Some c => evaluation_of c
  | None => None
  end.

(** The message of the [SyntaxError] for a call that is not closed, as
    CPython words it since version 3.10. *)
Definition never_closed : string := "'(' was never closed (<string>, line 1)".

Definition evaluate (e : evaluation) : M unit :=
  match e with
  | Malformed => raise (mk_exn SyntaxError never_closed)
  | Unresolved name => raise (no_attribute "SmartHomeHub" name)
  | Exits => raise (mk_exn SystemExit "None")
  | Calls c => perform c
  end.

(** [eval(src)] for the texts [src = "self." + command]. *)
Definition python_eval (src : string) : M unit :=
  match src with
  | String "s" (String "e" (String "l" (String "f" (String "." text)))) =>
      match understood text with
      | Some e => evaluate e
      | None => stuck
      end
  | _ => stuck
  end.



(** * Notions used in the statements *)

(** The state a light is left in by [turn_on] or [turn_off]. *)
Definition light_switched (a : nat) (d : Device) (status message : string)
    (s : state) : state :=
  with_output
    (output s ++ map (fun o => Updated o message) (observers d))
    (with_device_store (<[a := with_variant (Light status) d]> (device_store s)) s).

(** The messages that observer [o] received, oldest first. *)
Fixpoint delivered_to (o : observer) (evs : list event) : list string :=
  match evs with
  | [] => []
  | Updated o' message :: rest =>
      if decide (o' = o) then message :: delivered_to o rest
      else delivered_to o rest
  | Printed _ :: rest => delivered_to o rest
  end.

(** How many times [o] is subscribed. *)
Definition subscriptions (o : observer) (l : list observer) : nat :=
  length (filter (fun x => x = o) l).

(** The state after a line was printed. *)
Definition printed (line : string) (s : state) : state :=
  with_output (output s ++ [Printed line]) s.

(** The state in which [create_device] leaves the stores and the
    dictionary when it has built device [d] for a new identifier: the
    device and the proxy take the next free addresses, and the dictionary
    holds the device itself. *)
Definition registered (device_id : pyval) (d : Device) (s : state) : state :=
  mk_state (device_store s ++ [d])
           (proxy_store s ++ [length (device_store s)])
           (Dict.set device_id (ODevice (length (device_store s))) (devices s))
           (scheduled_tasks s) (automated_triggers s) (output s).

(** The device object that [create_device] builds from its arguments,
    [None] for a device type it does not know. *)
Definition built (device_id : pyval) (device_type : string)
    (initial_status initial_temperature : pyval) : option Device :=
  if decide (device_type = "light") then
    Some (mk_Device device_id "light" [] (Light "off"))
  else if decide (device_type = "thermostat") then
    Some (mk_Device device_id "thermostat" []
            (Thermostat (if decide (initial_temperature = VNone)
                         then VInt 70 else initial_temperature)))
  else if decide (device_type = "door") then
    Some (mk_Device device_id "door" []
            (DoorLock (if decide (initial_status = VStr "unlocked")
                       then "unlocked" else "locked")))
  else None.

(** What [status_report()] returns on a device object [d]. *)
Definition device_report (d : Device) : string :=
  match variant_of d with
  | Light st => "Light " +:+ str (device_id d) +:+ " is " +:+ st +:+ "."
  | Thermostat t => "Thermostat is set to " +:+ str t +:+ " degrees."
  | DoorLock st => "Door is " +:+ st +:+ "."
  end.

(** The outcome of [o.status_report()] as a function of the two stores,
    and the outcome of the loop of the hub's [status_report] over a list
    of entries. *)
Definition obj_report (ds : list Device) (ps : list nat) (o : py_obj)
  : outcome string :=
  match o with
  | ONone => Raise (no_attribute "NoneType" "status_report")
  | ODevice a =>
      match ds !! a with
      | Some d => Return (device_report d)
      | None => Stuck
      end
  | OProxy p =>
      match ps !! p with
      | Some a =>
          match ds !! a with
          | Some d => Return (device_report d)
          | None => Stuck
          end
      | None => Stuck
      end
  end.

Fixpoint all_reports (ds : list Device) (ps : list nat)
    (entries : list (pyval * py_obj)) : outcome (list string) :=
  match entries with
  | [] => Return []
  | (_, o) :: rest =>
      match obj_report ds ps o with
      | Return r =>
          match all_reports ds ps rest with
          | Return rs => Return (r :: rs)
          | Raise e => Raise e
          | Stuck => Stuck
          end
      | Raise e => Raise e
      | Stuck => Stuck
      end
  end.

(** Mutation of a returned list of tasks or of triggers by a caller. *)
Definition tasks_append : list_ref task -> task -> state -> list_ref task * state :=
  ref_append scheduled_tasks with_scheduled_tasks.

Definition tasks_clear : list_ref task -> state -> list_ref task * state :=
  ref_clear with_scheduled_tasks.

Definition triggers_append
  : list_ref trigger -> trigger -> state -> list_ref trigger * state :=
  ref_append automated_triggers with_automated_triggers.

Definition triggers_clear : list_ref trigger -> state -> list_ref trigger * state :=
  ref_clear with_automated_triggers.



(** ** Sample inputs *)

Definition sample_light : Device :=
  mk_Device (VInt 1) "light" [4; 9; 4] (Light "off").

(** A light with three subscriptions, outside any hub. *)
Definition lone_light : state := mk_state [sample_light] [] [] [] [] [].

(** A hub whose light 1 was registered with [add_device]. *)
Definition hub_with_light : state :=
  mk_state [mk_Device (VInt 1) "light" [4] (Light "on")] [0]
           [(VInt 1, OProxy 0)] [] [] [Printed "Added new light with ID 1."].

(** A new hub after [add_device(1, "light", initial_status="off")]. *)
Definition hub_after_add_light : state :=
  mk_state [mk_Device (VInt 1) "light" [] (Light "off")] [0]
           [(VInt 1, OProxy 0)] [] [] [Printed "Added new light with ID 1."].

(** The hub of the example after its three [add_device] calls. *)
Definition hub_of_three : state :=
  mk_state [mk_Device (VInt 1) "light" [] (Light "off");
            mk_Device (VInt 2) "thermostat" [] (Thermostat (VInt 70));
            mk_Device (VInt 3) "door" [] (DoorLock "locked")]
           [0; 1; 2]
           [(VInt 1, OProxy 0); (VInt 2, OProxy 1); (VInt 3, OProxy 2)]
           [] [] [].



Definition hub_with_one_task_and_trigger : state :=
  mk_state [] [] [] [mk_task (VInt 2) "06:00" "turn_on(1)"]
           [mk_trigger "device.temperature > 75" "turn_off(1)"] [].

(** ** The shape of a hub that the methods build

    Python keeps the keys of a dictionary distinct and never hands out a
    reference to nothing.  In the model these are properties of a state:
    every proxy wraps a stored device, and every value of [hub.devices] is
    a stored device or a stored proxy. *)
Definition entry_ok (s : state) (o : py_obj) : Prop :=
  match o with
  | ONone => False
  | ODevice a => a < length (device_store s)
  | OProxy p => exists a, proxy_store s !! p = Some a /\ a < length (device_store s)
  end.

Definition hub_ok (s : state) : Prop :=
  NoDup (Dict.keys (devices s)) /\
  Forall (fun a => a < length (device_store s)) (proxy_store s) /\
  Forall (fun kv => entry_ok s kv.2) (devices s).

(** What a method that only works on device objects leaves alone. *)
Definition frame (s s' : state) : Prop :=
  devices s' = devices s /\
  proxy_store s' = proxy_store s /\
  length (device_store s') = length (device_store s) /\
  scheduled_tasks s' = scheduled_tasks s /\
  automated_triggers s' = automated_triggers s.

Definition framed {A} (m : M A) : Prop := forall s, frame s (snd (m s)).

(** ** Callers

    The address of the device object behind a value of [hub.devices]. *)
Definition behind (s : state) (o : py_obj) : option nat :=
  match o with
  | ONone => None
  | ODevice a => Some a
  | OProxy p => proxy_store s !! p
  end.

(** What a caller can do with a hub, with the proxies it was handed and
    with devices it holds directly.  [execute_command] is called with a
    command text.  [run_scheduled_tasks] is not among the calls: it does
    not return.  Nor is what a caller does to a list that an accessor
    returned, which is no call on the hub. *)
Inductive call : Type :=
  | CreateDevice (device_id : pyval) (device_type : string)
                 (initial_status initial_temperature : pyval)
  | AddDevice (device_id : pyval) (device_type : string)
              (initial_status initial_temperature : pyval)
  | RemoveDevice (device_id : pyval)
  | TurnOn (device_id : pyval)
  | TurnOff (device_id : pyval)
  | SetSchedule (device_id : pyval) (time action : string)
  | AddTrigger (condition action : string)
  | ExecuteCommand (command : string)
  | StatusReport
  | GetScheduledTasks
  | GetAutomatedTriggers
  | ProxyTurnOn (p : nat)
  | ProxyTurnOff (p : nat)
  | ProxySetTemperature (p : nat) (temperature : pyval)
  | ProxyLock (p : nat)
  | ProxyUnlock (p : nat)
  | ProxyStatusReport (p : nat)
  | AddObserver (a : nat) (o : observer)
  | RemoveObserver (a : nat) (o : observer).

(** The state after a call, whether the call returned or raised: a caller
    that catches the exception goes on from the state it left. *)
Definition after_call (s : state) (c : call) : state :=
  match c with
  | CreateDevice i ty st t => snd (SmartHomeHub.create_device i ty st t s)
  | AddDevice i ty st t => snd (SmartHomeHub.add_device i ty st t s)
  | RemoveDevice i => snd (SmartHomeHub.remove_device i s)
  | TurnOn i => snd (SmartHomeHub.turn_on i s)
  | TurnOff i => snd (SmartHomeHub.turn_off i s)
  | SetSchedule i time action => snd (SmartHomeHub.set_schedule i time action s)
  | AddTrigger condition action => snd (SmartHomeHub.add_trigger condition action s)
  | ExecuteCommand command =>
      snd (SmartHomeHub.execute_command python_eval command s)
  | StatusReport => snd (SmartHomeHub.status_report s)
  | GetScheduledTasks => snd (SmartHomeHub.get_scheduled_tasks s)
  | GetAutomatedTriggers => snd (SmartHomeHub.get_automated_triggers s)
  | ProxyTurnOn p => snd (DeviceProxy.turn_on p s)
  | ProxyTurnOff p => snd (DeviceProxy.turn_off p s)
  | ProxySetTemperature p t => snd (DeviceProxy.set_temperature p t s)
  | ProxyLock p => snd (DeviceProxy.lock p s)
  | ProxyUnlock p => snd (DeviceProxy.unlock p s)
  | ProxyStatusReport p => snd (DeviceProxy.status_report p s)
  | AddObserver a o => snd (Device.add_observer a o s)
  | RemoveObserver a o => snd (Device.remove_observer a o s)
  end.

Definition after_calls (cs : list call) (s : state) : state :=
  fold_left after_call cs s.




(** ** More sample inputs *)

(** A caller that registers devices directly and through commands,
    schedules, and runs into three errors on the way. *)
Definition sample_calls : list call :=
  [AddDevice (VInt 1) "light" (VStr "off") VNone;
   ExecuteCommand "add_device(2, 'thermostat', None, 64)";
   ExecuteCommand "turn_on(2)";
   SetSchedule (VInt 2) "06:00" "turn_on(1)";
   ExecuteCommand "set_schedule(1, '22:00', 'turn_off(1)')";
   ExecuteCommand "add_trigger('dusk', 'turn_on(1)')";
   ExecuteCommand "fly(";
   GetScheduledTasks;
   RemoveDevice (VInt 1);
   CreateDevice (VInt 1) "door" (VStr "unlocked") VNone;
   AddTrigger "device.temperature > 75" "turn_off(1)";
   TurnOn (VInt 1)].

(** An evaluator for which one command asks the interpreter to exit. *)
Definition exit_eval (src : string) : M unit :=
  if decide (src = "self.turn_on(exit())")
  then raise (mk_exn SystemExit "")
  else SmartHomeHub.add_trigger "dusk" src.

Definition hub_with_exit_task : state :=
  mk_state [] [] []
           [mk_task (VInt 1) "07:30" "turn_off(1)";
            mk_task (VInt 1) "06:00" "turn_on(exit())";
            mk_task (VInt 1) "06:00" "turn_on(1)"]
           [] [].

(** The hub of the example with two observers on the thermostat and one
    on the door lock. *)
Definition watched_hub : state :=
  mk_state [mk_Device (VInt 1) "light" [] (Light "off");
            mk_Device (VInt 2) "thermostat" [5; 6] (Thermostat (VInt 70));
            mk_Device (VInt 3) "door" [8] (DoorLock "locked")]
           [0; 1; 2]
           [(VInt 1, OProxy 0); (VInt 2, OProxy 1); (VInt 3, OProxy 2)]
           [] [] [].






(** * Properties *)

Open Scope list_scope.

(** ** Running computations *)

Lemma bind_Return {A B} (m : M A) (k : A -> M B) s a s' :
  m s = (Return a, s') -> bind m k s = k a s'.
Proof. intros H. unfold bind. now rewrite H. Qed.

Lemma bind_Raise {A B} (m : M A) (k : A -> M B) s e s' :
  m s = (Raise e, s') -> bind m k s = (Raise e, s').
Proof. intros H. unfold bind. now rewrite H. Qed.

Lemma get_device_Some a d s :
  device_store s !! a = Some d -> get_device a s = (Return d, s).
Proof. intros H. unfold get_device. now rewrite H. Qed.

Lemma get_proxy_Some p a s :
  proxy_store s !! p = Some a -> get_proxy p s = (Return a, s).
Proof. intros H. unfold get_proxy. now rewrite H. Qed.

(** Delivering a message appends one [Updated] event per subscriber, in
    the order of the list, and touches nothing else. *)
Lemma update_each_spec l message s :
  Device.update_each l message s =
  (Return tt, with_output (output s ++ map (fun o => Updated o message) l) s).
Proof.
  revert s. induction l as [|o l IH]; intros s; simpl.
  - unfold ret. rewrite app_nil_r. now destruct s.
  - unfold bind, emit. rewrite IH. simpl.
    rewrite <- app_assoc. reflexivity.
Qed.

Lemma notify_observers_spec a d message s :
  device_store s !! a = Some d ->
  Device.notify_observers a message s =
  (Return tt,
   with_output (output s ++ map (fun o => Updated o message) (observers d)) s).
Proof.
  intros H. unfold Device.notify_observers.
  rewrite (bind_Return _ _ _ _ _ (get_device_Some _ _ _ H)).
  apply update_each_spec.
Qed.

Lemma lookup_after_put a d (s : state) :
  a < length (device_store s) ->
  device_store (with_device_store (<[a := d]> (device_store s)) s) !! a = Some d.
Proof. intros H. simpl. now apply list_lookup_insert_eq. Qed.

Lemma Light_turn_on_spec a d st s :
  device_store s !! a = Some d ->
  variant_of d = Light st ->
  Light.turn_on a s =
  (Return tt, light_switched a d "on" "Light is turned on (on)" s).
Proof.
  intros Hd Hv. unfold Light.turn_on, set_status, get_status.
  assert (Hlt : a < length (device_store s)) by (eapply lookup_lt_Some; eauto).
  unfold bind at 1. unfold bind at 1. rewrite (get_device_Some _ _ _ Hd), Hv.
  unfold put_device.
  unfold bind at 1. unfold bind at 1.
  rewrite (get_device_Some _ (with_variant (Light "on") d))
    by (now apply lookup_after_put).
  cbn [variant_of with_variant ret].
  erewrite notify_observers_spec by (now apply lookup_after_put).
  reflexivity.
Qed.

Lemma Light_turn_off_spec a d st s :
  device_store s !! a = Some d ->
  variant_of d = Light st ->
  Light.turn_off a s =
  (Return tt, light_switched a d "off" "Light is turned off (off)" s).
Proof.
  intros Hd Hv. unfold Light.turn_off, set_status, get_status.
  assert (Hlt : a < length (device_store s)) by (eapply lookup_lt_Some; eauto).
  unfold bind at 1. unfold bind at 1. rewrite (get_device_Some _ _ _ Hd), Hv.
  unfold put_device.
  unfold bind at 1. unfold bind at 1.
  rewrite (get_device_Some _ (with_variant (Light "off") d))
    by (now apply lookup_after_put).
  cbn [variant_of with_variant ret].
  erewrite notify_observers_spec by (now apply lookup_after_put).
  reflexivity.
Qed.

(** ** Notifications of a light *)

Lemma delivered_to_app o evs1 evs2 :
  delivered_to o (evs1 ++ evs2) = delivered_to o evs1 ++ delivered_to o evs2.
Proof.
  induction evs1 as [|[line|o' message] evs1 IH]; simpl; [reflexivity|exact IH|].
  destruct (decide (o' = o)); simpl; now rewrite IH.
Qed.

Lemma delivered_to_map o message l :
  delivered_to o (map (fun x => Updated x message) l)
  = replicate (subscriptions o l) message.
Proof.
  unfold subscriptions.
  induction l as [|x l IH]; [reflexivity|].
  rewrite filter_cons. cbn [map delivered_to].
  destruct (decide (x = o)); cbn [length replicate]; now rewrite IH.
Qed.

(** C4. A light at address [a] with subscriber sequence [observers d]:
    the call [turn_on()] returns with the light on and with one
    notification "Light is turned on (on)" per entry of the sequence
    already delivered, in subscription order; the following [turn_off()]
    returns with the light off and one notification
    "Light is turned off (off)" per entry delivered after those.  Nothing
    else is printed or delivered.  An observer therefore receives, per
    subscription, exactly these two messages, the one for on before the
    one for off (an observer subscribed [n] times is [n] subscribers). *)
Theorem light_on_then_off_notifies a d st s :
  device_store s !! a = Some d ->
  variant_of d = Light st ->
  let turned_on := fun o => Updated o "Light is turned on (on)" in
  let turned_off := fun o => Updated o "Light is turned off (off)" in
  exists s1 s2,
    Call.turn_on a s = (Return tt, s1) /\
    device_store s1 !! a = Some (with_variant (Light "on") d) /\
    output s1 = (output s ++ map turned_on (observers d))%list /\
    Call.turn_off a s1 = (Return tt, s2) /\
    device_store s2 !! a = Some (with_variant (Light "off") d) /\
    output s2 = (output s ++ map turned_on (observers d)
                          ++ map turned_off (observers d))%list /\
    forall o,
      delivered_to o (output s2)
      = delivered_to o (output s)
          ++ replicate (subscriptions o (observers d)) "Light is turned on (on)"
          ++ replicate (subscriptions o (observers d)) "Light is turned off (off)".
Proof.
  intros Hd Hv turned_on turned_off.
  assert (Hlt : a < length (device_store s)) by (eapply lookup_lt_Some; eauto).
  set (s1 := light_switched a d "on" "Light is turned on (on)" s).
  assert (Hd1 : device_store s1 !! a = Some (with_variant (Light "on") d))
    by (now apply lookup_after_put).
  set (d1 := with_variant (Light "on") d) in *.
  set (s2 := light_switched a d1 "off" "Light is turned off (off)" s1).
  assert (Hout : output s2 = output s ++ map turned_on (observers d)
                                      ++ map turned_off (observers d))
    by (cbn; now rewrite <- app_assoc).
  exists s1, s2.
  split.
  { unfold Call.turn_on.
    rewrite (bind_Return _ _ _ _ _ (get_device_Some _ _ _ Hd)), Hv.
    eapply Light_turn_on_spec; eauto. }
  split; [exact Hd1|]. split; [reflexivity|].
  split.
  { unfold Call.turn_off.
    rewrite (bind_Return _ _ _ _ _ (get_device_Some _ _ _ Hd1)).
    cbn [d1 variant_of with_variant].
    eapply Light_turn_off_spec; eauto. }
  split.
  { cbn [s2 light_switched device_store with_output with_device_store].
    rewrite list_lookup_insert_eq; [reflexivity|].
    subst s1. cbn. now rewrite length_insert. }
  split; [exact Hout|].
  intros o. rewrite Hout, !delivered_to_app.
  unfold turned_on, turned_off. now rewrite !delivered_to_map.
Qed.

Lemma light_on_then_off_notifies_witness :
  exists s1 s2,
    Call.turn_on 0 lone_light = (Return tt, s1) /\
    device_store s1 !! 0 = Some (with_variant (Light "on") sample_light) /\
    output s1 = [Updated 4 "Light is turned on (on)";
                 Updated 9 "Light is turned on (on)";
                 Updated 4 "Light is turned on (on)"] /\
    Call.turn_off 0 s1 = (Return tt, s2) /\
    device_store s2 !! 0 = Some (with_variant (Light "off") sample_light) /\
    output s2 = [Updated 4 "Light is turned on (on)";
                 Updated 9 "Light is turned on (on)";
                 Updated 4 "Light is turned on (on)";
                 Updated 4 "Light is turned off (off)";
                 Updated 9 "Light is turned off (off)";
                 Updated 4 "Light is turned off (off)"] /\
    delivered_to 9 (output s2)
      = ["Light is turned on (on)"; "Light is turned off (off)"].
Proof.
  destruct (light_on_then_off_notifies 0 sample_light "off" lone_light
              eq_refl eq_refl)
    as (s1 & s2 & H1 & H2 & H3 & H4 & H5 & H6 & H7).
  exists s1, s2. repeat (split; [assumption|]). exact (H7 9).
Defined.

(** ** The proxy of a light *)

(** C5. On a proxy that wraps a light, [set_temperature(value)], [lock()]
    and [unlock()] each return after printing their line "This device does
    not support ...": the resulting state is the state before with that
    one printed line added, so the light (its [status] included) is as it
    was and no subscriber was notified. *)
Theorem proxy_of_light_rejects p a d st s :
  proxy_store s !! p = Some a ->
  device_store s !! a = Some d ->
  variant_of d = Light st ->
  (forall value,
     DeviceProxy.set_temperature p value s =
     (Return tt, printed "This device does not support temperature control." s)) /\
  DeviceProxy.lock p s =
    (Return tt, printed "This device does not support locking." s) /\
  DeviceProxy.unlock p s =
    (Return tt, printed "This device does not support unlocking." s) /\
  (forall line,
     device_store (printed line s) !! a = Some d /\
     forall o message, Updated o message ∈ output (printed line s) ->
                       Updated o message ∈ output s).
Proof.
  intros Hp Hd Hv.
  unfold DeviceProxy.set_temperature, DeviceProxy.lock, DeviceProxy.unlock.
  repeat split; intros;
    rewrite ?(bind_Return _ _ _ _ _ (get_proxy_Some _ _ _ Hp)),
            ?(bind_Return _ _ _ _ _ (get_device_Some _ _ _ Hd));
    unfold Call.isinstance_Thermostat, Call.isinstance_DoorLock;
    rewrite ?Hv; try reflexivity.
  - exact Hd.
  - cbn in H. apply elem_of_app in H as [H|H]; [exact H|].
    apply list_elem_of_singleton in H. discriminate H.
Qed.

Lemma proxy_of_light_rejects_witness :
  DeviceProxy.set_temperature 0 (VInt 75) hub_with_light =
    (Return tt,
     printed "This device does not support temperature control." hub_with_light) /\
  DeviceProxy.lock 0 hub_with_light =
    (Return tt, printed "This device does not support locking." hub_with_light) /\
  DeviceProxy.unlock 0 hub_with_light =
    (Return tt, printed "This device does not support unlocking." hub_with_light) /\
  device_store (printed "This device does not support locking." hub_with_light) !! 0
    = Some (mk_Device (VInt 1) "light" [4] (Light "on")).
Proof.
  pose proof (proxy_of_light_rejects 0 0
                (mk_Device (VInt 1) "light" [4] (Light "on")) "on" hub_with_light
                eq_refl eq_refl eq_refl) as (H1 & H2 & H3 & H4).
  exact (conj (H1 (VInt 75)) (conj H2 (conj H3 (proj1 (H4 _))))).
Defined.

(** ** Unsubscribing *)

(** C8, as the code has it.  [remove_observer] with an observer that is
    not subscribed raises [ValueError] out of the method, to the caller;
    the device, its subscriber list included, and the output are as
    before. *)
Theorem remove_absent_observer_raises a d o s :
  device_store s !! a = Some d ->
  o ∉ observers d ->
  Device.remove_observer a o s =
  (Raise (mk_exn ValueError "list.remove(x): x not in list"), s).
Proof.
  intros Hd Hin. unfold Device.remove_observer.
  rewrite (bind_Return _ _ _ _ _ (get_device_Some _ _ _ Hd)).
  now rewrite decide_False.
Qed.

Lemma seven_not_subscribed : 7 ∉ observers sample_light.
Proof. apply (bool_decide_unpack _). vm_compute. reflexivity. Qed.

Lemma remove_absent_observer_raises_witness :
  Device.remove_observer 0 7 lone_light =
  (Raise (mk_exn ValueError "list.remove(x): x not in list"), lone_light).
Proof.
  exact (remove_absent_observer_raises 0 sample_light 7 lone_light eq_refl
           seven_not_subscribed).
Defined.

(** C8, as the claim has it, fails: with observers 4 and 9 subscribed and
    observer 7 not, [remove_observer(7)] does not return to its caller. *)
Lemma remove_absent_observer_aborts :
  device_store lone_light !! 0 = Some sample_light /\
  (7 ∉ observers sample_light) /\
  ~ (exists s', Device.remove_observer 0 7 lone_light = (Return tt, s')).
Proof.
  split; [reflexivity|]. split; [exact seven_not_subscribed|].
  intros [s' H]. vm_compute in H. discriminate H.
Qed.

(** ** Stores and dictionaries *)

Lemma lookup_snoc_last {A} (l : list A) (x : A) :
  (l ++ [x]) !! length l = Some x.
Proof. now apply list_lookup_middle. Qed.

Lemma insert_snoc_last {A} (l : list A) (x y : A) :
  <[length l := y]> (l ++ [x]) = l ++ [y].
Proof.
  rewrite insert_app_r_alt by reflexivity.
  now rewrite Nat.sub_diag.
Qed.

Section DictFacts.
Context {V : Type}.
Implicit Types (d : list (pyval * V)) (k : pyval) (v : V).

Lemma get_None_keys k d : Dict.get k d = None <-> k ∉ Dict.keys d.
Proof.
  unfold Dict.keys. induction d as [|[k' v'] d IH]; simpl.
  - split; [intros _ H; inversion H | reflexivity].
  - rewrite not_elem_of_cons. destruct (decide (k = k')) as [->|Hne].
    + split; [discriminate | intros [H _]; now destruct H].
    + rewrite IH. tauto.
Qed.

Lemma get_set_eq k v d : Dict.get k (Dict.set k v d) = Some v.
Proof.
  induction d as [|[k' v'] d IH]; simpl.
  - now rewrite decide_True.
  - destruct (decide (k = k')) as [->|Hne]; simpl.
    + now rewrite decide_True.
    + now rewrite decide_False.
Qed.

Lemma set_absent k v d :
  Dict.get k d = None -> Dict.set k v d = d ++ [(k, v)].
Proof.
  induction d as [|[k' v'] d IH]; simpl; [reflexivity|].
  destruct (decide (k = k')); [discriminate|].
  intros H. now rewrite IH.
Qed.

Lemma set_set k v w d : Dict.set k v (Dict.set k w d) = Dict.set k v d.
Proof.
  induction d as [|[k' v'] d IH]; simpl.
  - now rewrite decide_True.
  - destruct (decide (k = k')) as [->|Hne]; simpl.
    + now rewrite decide_True.
    + now rewrite decide_False, IH.
Qed.

Lemma del_set_absent k v d :
  Dict.get k d = None -> Dict.del k (Dict.set k v d) = d.
Proof.
  induction d as [|[k' v'] d IH]; simpl.
  - now rewrite decide_True.
  - destruct (decide (k = k')); [discriminate|].
    intros H. simpl. now rewrite decide_False, IH.
Qed.

(** A key that is present splits the dictionary at its entry, and
    [del] takes exactly that entry out. *)
Lemma get_Some_split k v d :
  Dict.get k d = Some v ->
  exists before after,
    d = before ++ (k, v) :: after /\
    Dict.get k before = None /\
    Dict.del k d = before ++ after.
Proof.
  induction d as [|[k' v'] d IH]; simpl; [discriminate|].
  destruct (decide (k = k')) as [->|Hne].
  - intros [= ->]. now exists [], d.
  - intros H. destruct (IH H) as (b & a & -> & Hb & Hdel).
    exists ((k', v') :: b), a. simpl.
    rewrite decide_False by assumption. now rewrite Hdel.
Qed.

Lemma get_del_ne k k' d :
  k' <> k -> Dict.get k' (Dict.del k d) = Dict.get k' d.
Proof.
  intros Hne. induction d as [|[k0 v0] d IH]; simpl; [reflexivity|].
  destruct (decide (k = k0)) as [->|Hk]; simpl.
  - now rewrite decide_False.
  - now rewrite IH.
Qed.

Lemma get_del_eq k d :
  NoDup (Dict.keys d) -> Dict.get k (Dict.del k d) = None.
Proof.
  unfold Dict.keys. induction d as [|[k0 v0] d IH]; simpl; [reflexivity|].
  rewrite NoDup_cons. intros [Hnotin Hnd].
  destruct (decide (k = k0)) as [->|Hk]; simpl.
  - now apply get_None_keys.
  - rewrite decide_False by assumption. now apply IH.
Qed.
End DictFacts.

Lemma contains_present id o s :
  Dict.get id (devices s) = Some o ->
  SmartHomeHub.contains id s = (Return true, s).
Proof.
  intros H. unfold SmartHomeHub.contains.
  rewrite bool_decide_eq_true_2; [reflexivity | now rewrite H].
Qed.

Lemma contains_absent id s :
  Dict.get id (devices s) = None ->
  SmartHomeHub.contains id s = (Return false, s).
Proof.
  intros H. unfold SmartHomeHub.contains.
  rewrite bool_decide_eq_false_2; [reflexivity|].
  rewrite H. now intros [? ?].
Qed.

(** ** Creating devices *)

Lemma set_temperature_spec a d t0 t s :
  device_store s !! a = Some d ->
  variant_of d = Thermostat t0 ->
  Thermostat.set_temperature a t s =
  (Return tt,
   with_output
     (output s ++ map (fun o => Updated o ("Thermostat temperature set to "
                                           +:+ str t +:+ " degrees"))
                      (observers d))
     (with_device_store (<[a := with_variant (Thermostat t) d]> (device_store s)) s)).
Proof.
  intros Hd Hv.
  unfold Thermostat.set_temperature, set_temperature_attr, get_temperature.
  assert (Hlt : a < length (device_store s)) by (eapply lookup_lt_Some; eauto).
  unfold bind at 1. unfold bind at 1. rewrite (get_device_Some _ _ _ Hd), Hv.
  unfold put_device.
  unfold bind at 1. unfold bind at 1.
  rewrite (get_device_Some _ (with_variant (Thermostat t) d))
    by (now apply lookup_after_put).
  cbn [variant_of with_variant ret].
  erewrite notify_observers_spec by (now apply lookup_after_put).
  reflexivity.
Qed.

Lemma set_status_door_spec a d st0 st s :
  device_store s !! a = Some d ->
  variant_of d = DoorLock st0 ->
  set_status a st s =
  (Return tt,
   with_device_store (<[a := with_variant (DoorLock st) d]> (device_store s)) s).
Proof.
  intros Hd Hv. unfold set_status.
  rewrite (bind_Return _ _ _ _ _ (get_device_Some _ _ _ Hd)), Hv.
  reflexivity.
Qed.

Lemma lock_spec a d st0 s :
  device_store s !! a = Some d ->
  variant_of d = DoorLock st0 ->
  DoorLock.lock a s =
  (Return tt,
   with_output
     (output s ++ map (fun o => Updated o "Door is locked") (observers d))
     (with_device_store (<[a := with_variant (DoorLock "locked") d]> (device_store s)) s)).
Proof.
  intros Hd Hv. unfold DoorLock.lock.
  assert (Hlt : a < length (device_store s)) by (eapply lookup_lt_Some; eauto).
  rewrite (bind_Return _ _ _ _ _ (set_status_door_spec _ _ _ _ _ Hd Hv)).
  erewrite notify_observers_spec by (now apply lookup_after_put).
  reflexivity.
Qed.

Lemma unlock_spec a d st0 s :
  device_store s !! a = Some d ->
  variant_of d = DoorLock st0 ->
  DoorLock.unlock a s =
  (Return tt,
   with_output
     (output s ++ map (fun o => Updated o "Door is unlocked") (observers d))
     (with_device_store (<[a := with_variant (DoorLock "unlocked") d]> (device_store s)) s)).
Proof.
  intros Hd Hv. unfold DoorLock.unlock.
  assert (Hlt : a < length (device_store s)) by (eapply lookup_lt_Some; eauto).
  rewrite (bind_Return _ _ _ _ _ (set_status_door_spec _ _ _ _ _ Hd Hv)).
  erewrite notify_observers_spec by (now apply lookup_after_put).
  reflexivity.
Qed.

(** [create_device] with an identifier that is not registered: it builds
    the device, stores the device under the identifier and returns a new
    proxy of it; an unknown device type raises [ValueError] before
    anything is stored. *)
Lemma create_device_fresh id ty st temp s :
  Dict.get id (devices s) = None ->
  SmartHomeHub.create_device id ty st temp s =
  match built id ty st temp with
  | Some d => (Return (OProxy (length (proxy_store s))), registered id d s)
  | None => (Raise (mk_exn ValueError "Invalid device type"), s)
  end.
Proof.
  intros Hfresh. unfold SmartHomeHub.create_device, built.
  rewrite (bind_Return _ _ _ _ _ (contains_absent _ _ Hfresh)).
  cbn iota.
  destruct (decide (ty = "light")); [reflexivity|].
  destruct (decide (ty = "thermostat")).
  { destruct (decide (temp = VNone)); [reflexivity|].
    unfold Thermostat.init.
    unfold bind at 1. unfold bind at 1. unfold new_device at 1.
    unfold bind at 1.
    erewrite set_temperature_spec;
      [ | cbn [device_store with_device_store]; apply lookup_snoc_last
        | reflexivity ].
    cbn. rewrite insert_snoc_last, app_nil_r. reflexivity. }
  destruct (decide (ty = "door")); [|reflexivity].
  destruct (decide (st = VNone)) as [->|]; [reflexivity|].
  unfold DoorLock.init.
  destruct (decide (st = VStr "locked")) as [->|].
  { unfold bind at 1. unfold bind at 1. unfold new_device at 1.
    unfold bind at 1.
    erewrite lock_spec;
      [ | cbn [device_store with_device_store]; apply lookup_snoc_last
        | reflexivity ].
    cbn. rewrite insert_snoc_last, app_nil_r. reflexivity. }
  destruct (decide (st = VStr "unlocked")) as [->|]; [|reflexivity].
  unfold bind at 1. unfold bind at 1. unfold new_device at 1.
  unfold bind at 1.
  erewrite unlock_spec;
    [ | cbn [device_store with_device_store]; apply lookup_snoc_last
      | reflexivity ].
  cbn. rewrite insert_snoc_last, app_nil_r. reflexivity.
Qed.

(** C6. With an identifier that is already a key of [hub.devices],
    [create_device] and [add_device] print "Device with ID ... already
    exists." and return [None]: no device and no proxy is allocated, and
    the dictionary and every stored device are as before. *)
Theorem duplicate_id_is_reported id o ty st temp s :
  Dict.get id (devices s) = Some o ->
  exists s',
    s' = printed ("Device with ID " +:+ str id +:+ " already exists.") s /\
    SmartHomeHub.create_device id ty st temp s = (Return ONone, s') /\
    SmartHomeHub.add_device id ty st temp s = (Return tt, s') /\
    devices s' = devices s /\
    device_store s' = device_store s /\
    proxy_store s' = proxy_store s.
Proof.
  intros Hin. eexists. split; [reflexivity|].
  unfold SmartHomeHub.create_device, SmartHomeHub.add_device.
  rewrite !(bind_Return _ _ _ _ _ (contains_present _ _ _ Hin)).
  repeat split.
Qed.

Lemma duplicate_id_is_reported_witness :
  SmartHomeHub.create_device (VInt 1) "door" (VStr "unlocked") VNone hub_with_light
    = (Return ONone, printed "Device with ID 1 already exists." hub_with_light) /\
  SmartHomeHub.add_device (VInt 1) "door" (VStr "unlocked") VNone hub_with_light
    = (Return tt, printed "Device with ID 1 already exists." hub_with_light) /\
  devices (printed "Device with ID 1 already exists." hub_with_light)
    = devices hub_with_light /\
  device_store (printed "Device with ID 1 already exists." hub_with_light)
    = device_store hub_with_light /\
  proxy_store (printed "Device with ID 1 already exists." hub_with_light)
    = proxy_store hub_with_light.
Proof.
  destruct (duplicate_id_is_reported (VInt 1) (OProxy 0) "door" (VStr "unlocked")
              VNone hub_with_light eq_refl) as (s' & -> & H).
  exact H.
Defined.

(** ** Registering with [add_device], then removing *)

(** [add_device] with an identifier that is not registered. *)
Lemma add_device_fresh id ty st temp s :
  Dict.get id (devices s) = None ->
  SmartHomeHub.add_device id ty st temp s =
  match built id ty st temp with
  | Some d =>
      (Return tt,
       printed ("Added new " +:+ ty +:+ " with ID " +:+ str id +:+ ".")
         (with_devices
            (Dict.set id (OProxy (length (proxy_store s)))
               (devices (registered id d s)))
            (registered id d s)))
  | None => (Raise (mk_exn ValueError "Invalid device type"), s)
  end.
Proof.
  intros Hfresh. unfold SmartHomeHub.add_device.
  rewrite (bind_Return _ _ _ _ _ (contains_absent _ _ Hfresh)).
  cbn iota. unfold bind at 1. rewrite (create_device_fresh _ _ _ _ _ Hfresh).
  destruct (built id ty st temp); reflexivity.
Qed.

(** C3. After an [add_device] call that registered [id], the dictionary
    binds [id] to the proxy that [create_device] returned, in place of
    the device object that [create_device] had stored itself.
    [remove_device(id)] then deletes the entry and raises
    [AttributeError] on [device.device_type]: it prints nothing, and the
    exception leaves the method. *)
Theorem add_device_binds_proxy_and_remove_raises id ty st temp s s1 :
  Dict.get id (devices s) = None ->
  SmartHomeHub.add_device id ty st temp s = (Return tt, s1) ->
  exists a p s0,
    SmartHomeHub.create_device id ty st temp s = (Return (OProxy p), s0) /\
    Dict.get id (devices s0) = Some (ODevice a) /\
    proxy_store s1 !! p = Some a /\
    Dict.get id (devices s1) = Some (OProxy p) /\
    SmartHomeHub.remove_device id s1 =
      (Raise (no_attribute "DeviceProxy" "device_type"),
       with_devices (Dict.del id (devices s1)) s1) /\
    Dict.get id (Dict.del id (devices s1)) = None.
Proof.
  intros Hfresh Hadd.
  rewrite (add_device_fresh _ _ _ _ _ Hfresh) in Hadd.
  pose proof (create_device_fresh id ty st temp s Hfresh) as Hcreate.
  destruct (built id ty st temp) as [d|]; [|discriminate Hadd].
  injection Hadd as <-.
  set (s1 := printed _ _).
  exists (length (device_store s)), (length (proxy_store s)), (registered id d s).
  assert (Hget : Dict.get id (devices s1) = Some (OProxy (length (proxy_store s))))
    by apply get_set_eq.
  split; [exact Hcreate|].
  split; [apply get_set_eq|].
  split; [apply lookup_snoc_last|].
  split; [exact Hget|].
  split.
  - unfold SmartHomeHub.remove_device.
    rewrite (bind_Return _ _ _ _ _ (contains_present _ _ _ Hget)).
    cbn iota. unfold bind at 1. unfold SmartHomeHub.get_item at 1.
    rewrite Hget. reflexivity.
  - subst s1. cbn [devices printed with_output with_devices registered].
    rewrite set_set, del_set_absent by assumption. assumption.
Qed.

Lemma add_device_binds_proxy_and_remove_raises_witness :
  exists a p s0,
    SmartHomeHub.create_device (VInt 1) "light" (VStr "off") VNone new_hub
      = (Return (OProxy p), s0) /\
    Dict.get (VInt 1) (devices s0) = Some (ODevice a) /\
    proxy_store hub_after_add_light !! p = Some a /\
    Dict.get (VInt 1) (devices hub_after_add_light) = Some (OProxy p) /\
    SmartHomeHub.remove_device (VInt 1) hub_after_add_light =
      (Raise (no_attribute "DeviceProxy" "device_type"),
       with_devices (Dict.del (VInt 1) (devices hub_after_add_light))
         hub_after_add_light) /\
    Dict.get (VInt 1) (Dict.del (VInt 1) (devices hub_after_add_light)) = None.
Proof.
  exact (add_device_binds_proxy_and_remove_raises (VInt 1) "light" (VStr "off")
           VNone new_hub hub_after_add_light eq_refl eq_refl).
Defined.

(** ** Status reports *)

Lemma device_status_report_spec a s :
  Call.status_report a s =
  (match device_store s !! a with
   | Some d => Return (device_report d)
   | None => Stuck
   end, s).
Proof.
  unfold Call.status_report, bind, get_device.
  destruct (device_store s !! a) as [d|] eqn:Hd; [|reflexivity].
  unfold device_report.
  destruct (variant_of d) eqn:Hv;
    unfold Light.status_report, Thermostat.status_report,
      DoorLock.status_report, get_status, get_temperature, bind, get_device;
    rewrite ?Hd, ?Hv; reflexivity.
Qed.

Lemma obj_status_report_spec o s :
  Obj.status_report o s = (obj_report (device_store s) (proxy_store s) o, s).
Proof.
  destruct o as [|a|p]; simpl.
  - reflexivity.
  - apply device_status_report_spec.
  - unfold DeviceProxy.status_report, bind, get_proxy.
    destruct (proxy_store s !! p); [|reflexivity].
    apply device_status_report_spec.
Qed.

Lemma reports_spec entries s :
  SmartHomeHub.reports entries s =
  (all_reports (device_store s) (proxy_store s) entries, s).
Proof.
  induction entries as [|[k o] rest IH]; simpl; [reflexivity|].
  unfold bind at 1. rewrite obj_status_report_spec.
  destruct (obj_report _ _ o); [|reflexivity..].
  unfold bind at 1. rewrite IH.
  destruct (all_reports _ _ rest); reflexivity.
Qed.

Lemma status_report_spec s :
  SmartHomeHub.status_report s =
  (match all_reports (device_store s) (proxy_store s) (devices s) with
   | Return rs => Return (String.concat " " rs)
   | Raise e => Raise e
   | Stuck => Stuck
   end, s).
Proof.
  unfold SmartHomeHub.status_report, bind. rewrite reports_spec.
  destruct (all_reports _ _ _); reflexivity.
Qed.

(** The reports of a dictionary split at an entry: those before it, its
    own, those after it. *)
Lemma all_reports_split ds ps before k o after rs :
  all_reports ds ps (before ++ (k, o) :: after) = Return rs ->
  exists r1 r r2,
    rs = r1 ++ r :: r2 /\
    length r1 = length before /\
    obj_report ds ps o = Return r /\
    all_reports ds ps (before ++ after) = Return (r1 ++ r2).
Proof.
  revert rs. induction before as [|[k0 o0] before IH]; intros rs; simpl.
  - destruct (obj_report ds ps o) as [r| |]; [|discriminate..].
    destruct (all_reports ds ps after) as [r2| |]; [|discriminate..].
    intros [= <-]. now exists [], r, r2.
  - destruct (obj_report ds ps o0) as [r0| |]; [|discriminate..].
    destruct (all_reports ds ps (before ++ _ :: after)) as [rs'| |];
      [|discriminate..].
    intros [= <-].
    destruct (IH rs' eq_refl) as (r1 & r & r2 & -> & Hlen & Hr & Hrest).
    exists (r0 :: r1), r, r2. simpl. rewrite Hrest, Hlen. auto.
Qed.

(** C1. The scenario of the example: a light 1, a thermostat 2 and a door
    lock 3 are registered with [add_device] in this order, then
    [turn_on(1)]; the hub's [status_report()] returns the three device
    reports in the order of registration, separated by single spaces. *)
Theorem scenario_status_report :
  fst ((SmartHomeHub.add_device (VInt 1) "light" (VStr "off") VNone ;;
        SmartHomeHub.add_device (VInt 2) "thermostat" VNone (VInt 70) ;;
        SmartHomeHub.add_device (VInt 3) "door" (VStr "locked") VNone ;;
        SmartHomeHub.turn_on (VInt 1) ;;
        SmartHomeHub.status_report) new_hub)
  = Return "Light 1 is on. Thermostat is set to 70 degrees. Door is locked.".
Proof. vm_compute. reflexivity. Qed.

(** C2, at the input where it fails.  [create_device(1, "light",
    initial_status="on")] on a new hub returns a proxy, and both the
    hub's [status_report()] and the proxy's say that the light is off:
    the branch for lights never looks at [initial_status]. *)
Theorem created_light_ignores_initial_status :
  fst ((SmartHomeHub.create_device (VInt 1) "light" (VStr "on") VNone ;;
        SmartHomeHub.status_report) new_hub)
  = Return "Light 1 is off." /\
  fst ((let! proxy := SmartHomeHub.create_device (VInt 1) "light" (VStr "on") VNone in
        Obj.status_report proxy) new_hub)
  = Return "Light 1 is off.".
Proof. split; vm_compute; reflexivity. Qed.

(** The branches for thermostats and door locks do apply the initial
    state they are given, and the report of the new device shows it. *)
Lemma created_thermostat_reports_initial id (t : Z) st s :
  Dict.get id (devices s) = None ->
  exists p s',
    SmartHomeHub.create_device id "thermostat" st (VInt t) s
      = (Return (OProxy p), s') /\
    DeviceProxy.status_report p s'
      = (Return ("Thermostat is set to " +:+ pretty t +:+ " degrees."), s').
Proof.
  intros Hfresh. eexists _, _. split.
  - rewrite (create_device_fresh _ _ _ _ _ Hfresh). reflexivity.
  - pose proof (obj_status_report_spec (OProxy (length (proxy_store s)))) as H.
    simpl Obj.status_report in H. rewrite H.
    cbn [obj_report registered proxy_store device_store].
    now rewrite !lookup_snoc_last.
Qed.

Lemma created_door_reports_initial id (status : string) temp s :
  Dict.get id (devices s) = None ->
  status = "locked" \/ status = "unlocked" ->
  exists p s',
    SmartHomeHub.create_device id "door" (VStr status) temp s
      = (Return (OProxy p), s') /\
    DeviceProxy.status_report p s'
      = (Return ("Door is " +:+ status +:+ "."), s').
Proof.
  intros Hfresh Hst. eexists _, _. split.
  - rewrite (create_device_fresh _ _ _ _ _ Hfresh). reflexivity.
  - pose proof (obj_status_report_spec (OProxy (length (proxy_store s)))) as H.
    simpl Obj.status_report in H. rewrite H.
    cbn [obj_report registered proxy_store device_store].
    rewrite !lookup_snoc_last.
    destruct Hst as [-> | ->]; reflexivity.
Qed.

Lemma created_light_reports_off id st temp s :
  Dict.get id (devices s) = None ->
  exists p s',
    SmartHomeHub.create_device id "light" st temp s
      = (Return (OProxy p), s') /\
    DeviceProxy.status_report p s'
      = (Return ("Light " +:+ str id +:+ " is off."), s').
Proof.
  intros Hfresh. eexists _, _. split.
  - rewrite (create_device_fresh _ _ _ _ _ Hfresh). reflexivity.
  - pose proof (obj_status_report_spec (OProxy (length (proxy_store s)))) as H.
    simpl Obj.status_report in H. rewrite H.
    cbn [obj_report registered proxy_store device_store].
    now rewrite !lookup_snoc_last.
Qed.

(** ** Removing devices *)

Lemma remove_device_present id o s :
  Dict.get id (devices s) = Some o ->
  exists out s',
    SmartHomeHub.remove_device id s = (out, s') /\
    devices s' = Dict.del id (devices s) /\
    device_store s' = device_store s /\
    proxy_store s' = proxy_store s /\
    (forall p, o = OProxy p ->
       out = Raise (no_attribute "DeviceProxy" "device_type") /\
       output s' = output s) /\
    (forall a d, o = ODevice a -> device_store s !! a = Some d ->
       out = Return tt /\
       output s' = output s ++
         [Printed ("Removed " +:+ device_type d +:+ " with ID " +:+ str id +:+ ".")]).
Proof.
  intros Hin. unfold SmartHomeHub.remove_device.
  rewrite (bind_Return _ _ _ _ _ (contains_present _ _ _ Hin)).
  cbn iota. unfold bind at 1. unfold SmartHomeHub.get_item at 1. rewrite Hin.
  unfold bind at 1. unfold SmartHomeHub.del_item at 1.
  destruct o as [|a|p]; unfold bind, Obj.get_device_type.
  - eexists _, _. split; [reflexivity|]. repeat split; intros; discriminate.
  - unfold bind, get_device. cbn [device_store with_devices].
    destruct (device_store s !! a) as [d|] eqn:Hd.
    + eexists _, _. split; [reflexivity|].
      repeat split; try discriminate. simplify_eq. reflexivity.
    + eexists _, _. split; [reflexivity|].
      repeat split; try discriminate; simplify_eq.
  - eexists _, _. split; [reflexivity|]. repeat split; intros; discriminate.
Qed.

(** C7. [remove_device] with an identifier that is not a key prints
    "Device with ID ... not found." and leaves the dictionary, hence the
    number of devices, as it was.  With an identifier that is a key, the
    dictionary after the call is the one before without that entry: one
    device fewer, the identifier no longer a key, and [status_report()]
    then returns the reports of the other devices, in their order,
    without the report of the removed one.  (The call itself ends with
    "Removed ..." for a stored device object and with [AttributeError]
    for a stored proxy; the entry is deleted before either.) *)
Theorem remove_device_count_and_report id s :
  NoDup (Dict.keys (devices s)) ->
  (Dict.get id (devices s) = None ->
   exists s',
     SmartHomeHub.remove_device id s = (Return tt, s') /\
     s' = printed ("Device with ID " +:+ str id +:+ " not found.") s /\
     length (devices s') = length (devices s)) /\
  (forall o, Dict.get id (devices s) = Some o ->
   exists out s' before after,
     SmartHomeHub.remove_device id s = (out, s') /\
     devices s = before ++ (id, o) :: after /\
     devices s' = before ++ after /\
     length (devices s') + 1 = length (devices s) /\
     Dict.get id (devices s') = None /\
     (forall p, o = OProxy p ->
        out = Raise (no_attribute "DeviceProxy" "device_type")) /\
     (forall a d, o = ODevice a -> device_store s !! a = Some d ->
        out = Return tt) /\
     forall rs,
       fst (SmartHomeHub.reports (devices s) s) = Return rs ->
       exists r1 r r2,
         rs = r1 ++ r :: r2 /\
         length r1 = length before /\
         fst (Obj.status_report o s) = Return r /\
         SmartHomeHub.status_report s'
           = (Return (String.concat " " (r1 ++ r2)), s')).
Proof.
  intros Hnd. split.
  - intros Hout. eexists. split; [|split; reflexivity].
    unfold SmartHomeHub.remove_device.
    now rewrite (bind_Return _ _ _ _ _ (contains_absent _ _ Hout)).
  - intros o Hin.
    destruct (remove_device_present _ _ _ Hin)
      as (out & s' & Hrun & Hdev & Hds & Hps & Hproxy & Hdevice).
    destruct (get_Some_split _ _ _ Hin) as (before & after & Hsplit & _ & Hdel).
    exists out, s', before, after.
    split; [exact Hrun|]. split; [exact Hsplit|].
    split; [congruence|].
    split; [rewrite Hdev, Hdel, Hsplit, !length_app; simpl; lia|].
    split; [rewrite Hdev; now apply get_del_eq|].
    split; [intros p Hp; exact (proj1 (Hproxy p Hp))|].
    split; [intros a d Ha Hd; exact (proj1 (Hdevice a d Ha Hd))|].
    intros rs Hrs. rewrite reports_spec, Hsplit in Hrs. simpl in Hrs.
    destruct (all_reports_split _ _ _ _ _ _ _ Hrs)
      as (r1 & r & r2 & -> & Hlen & Hr & Hrest).
    exists r1, r, r2. repeat split; [exact Hlen | |].
    + now rewrite obj_status_report_spec.
    + rewrite status_report_spec, Hds, Hps, Hdev, Hdel, Hrest. reflexivity.
Qed.

Lemma hub_of_three_keys : NoDup (Dict.keys (devices hub_of_three)).
Proof. apply (bool_decide_unpack _). vm_compute. reflexivity. Qed.

Lemma remove_device_count_and_report_witness :
  NoDup (Dict.keys (devices hub_of_three)) /\
  (exists s',
     SmartHomeHub.remove_device (VInt 7) hub_of_three = (Return tt, s') /\
     s' = printed "Device with ID 7 not found." hub_of_three /\
     length (devices s') = length (devices hub_of_three)) /\
  (exists out s' before after,
     SmartHomeHub.remove_device (VInt 2) hub_of_three = (out, s') /\
     devices hub_of_three = before ++ (VInt 2, OProxy 1) :: after /\
     devices s' = before ++ after /\
     length (devices s') + 1 = length (devices hub_of_three) /\
     Dict.get (VInt 2) (devices s') = None).
Proof.
  pose proof (remove_device_count_and_report (VInt 7) hub_of_three
                hub_of_three_keys) as [Habsent _].
  pose proof (remove_device_count_and_report (VInt 2) hub_of_three
                hub_of_three_keys) as [_ Hpresent].
  split; [exact hub_of_three_keys|].
  split; [exact (Habsent eq_refl)|].
  destruct (Hpresent (OProxy 1) eq_refl)
    as (out & s' & before & after & H1 & H2 & H3 & H4 & H5 & _).
  exists out, s', before, after. auto.
Defined.

(** ** The accessors of the two lists *)

(** C10, as the code has it.  [get_scheduled_tasks()] and
    [get_automated_triggers()] change nothing and return the list object
    that the hub itself holds, not a copy: the returned list shows the
    stored contents, and what a caller appends to it, or clears from it,
    is appended to, or cleared from, the hub's own list. *)
Theorem accessors_return_the_stored_lists s :
  SmartHomeHub.get_scheduled_tasks s = (Return HubList, s) /\
  SmartHomeHub.get_automated_triggers s = (Return HubList, s) /\
  ref_contents scheduled_tasks HubList s = scheduled_tasks s /\
  ref_contents automated_triggers HubList s = automated_triggers s /\
  (forall x, scheduled_tasks (snd (tasks_append HubList x s))
             = scheduled_tasks s ++ [x]) /\
  (forall x, automated_triggers (snd (triggers_append HubList x s))
             = automated_triggers s ++ [x]) /\
  scheduled_tasks (snd (tasks_clear HubList s)) = [] /\
  automated_triggers (snd (triggers_clear HubList s)) = [].
Proof. repeat split. Qed.

(** C10, as the claim has it, fails: a caller that clears the list it got
    from [get_scheduled_tasks()], or appends to the list it got from
    [get_automated_triggers()], changes what the hub stores. *)
Lemma returned_lists_alias_the_hub :
  (exists r s1,
     SmartHomeHub.get_scheduled_tasks hub_with_one_task_and_trigger
       = (Return r, s1) /\
     scheduled_tasks (snd (tasks_clear r s1))
       <> scheduled_tasks hub_with_one_task_and_trigger) /\
  (exists r s1,
     SmartHomeHub.get_automated_triggers hub_with_one_task_and_trigger
       = (Return r, s1) /\
     automated_triggers (snd (triggers_append r (mk_trigger "dusk" "turn_on(1)") s1))
       <> automated_triggers hub_with_one_task_and_trigger).
Proof.
  split; eexists _, _; (split; [reflexivity|]); cbn; discriminate.
Qed.

(** ** The shape of the hub is kept *)

Lemma frame_refl s : frame s s.
Proof. repeat split. Qed.

Lemma frame_trans s1 s2 s3 : frame s1 s2 -> frame s2 s3 -> frame s1 s3.
Proof. unfold frame. intros (?&?&?&?&?) (?&?&?&?&?). repeat split; congruence. Qed.

Lemma framed_ret {A} (a : A) : framed (ret a).
Proof. intros s. apply frame_refl. Qed.

Lemma framed_raise {A} e : framed (@raise A e).
Proof. intros s. apply frame_refl. Qed.

Lemma framed_stuck {A} : framed (@stuck A).
Proof. intros s. apply frame_refl. Qed.

Lemma framed_bind {A B} (m : M A) (k : A -> M B) :
  framed m -> (forall a, framed (k a)) -> framed (bind m k).
Proof.
  intros Hm Hk s. unfold bind. specialize (Hm s).
  destruct (m s) as [[a|e|] s']; simpl in *; [|assumption..].
  eapply frame_trans; [exact Hm | apply Hk].
Qed.

Lemma framed_emit ev : framed (emit ev).
Proof. intros s. repeat split. Qed.

Lemma framed_get_device a : framed (get_device a).
Proof. intros s. unfold get_device. destruct (_ !! _); apply frame_refl. Qed.

Lemma framed_get_proxy p : framed (get_proxy p).
Proof. intros s. unfold get_proxy. destruct (_ !! _); apply frame_refl. Qed.

Lemma framed_put_device a d : framed (put_device a d).
Proof. intros s. repeat split. cbn. apply length_insert. Qed.

Lemma framed_contains id : framed (SmartHomeHub.contains id).
Proof. intros s. apply frame_refl. Qed.

Lemma framed_get_item id : framed (SmartHomeHub.get_item id).
Proof.
  intros s. unfold SmartHomeHub.get_item. destruct (Dict.get _ _); apply frame_refl.
Qed.

Lemma framed_update_each l message : framed (Device.update_each l message).
Proof.
  induction l as [|o l IH]; simpl; [apply framed_ret|].
  apply framed_bind; [apply framed_emit | intros _; exact IH].
Qed.

Create HintDb framed discriminated.
#[local] Hint Resolve framed_ret framed_raise framed_stuck framed_emit
  framed_get_device framed_get_proxy framed_put_device framed_contains
  framed_get_item framed_update_each : framed.
















Lemma hub_ok_set_schedule id time action s :
  hub_ok s -> hub_ok (snd (SmartHomeHub.set_schedule id time action s)).
Proof. intros Hok. exact Hok. Qed.

Lemma hub_ok_add_trigger condition action s :
  hub_ok s -> hub_ok (snd (SmartHomeHub.add_trigger condition action s)).
Proof. intros Hok. exact Hok. Qed.


(** * Further properties of the code *)

(** ** Creation *)

Lemma built_device_type id ty st temp d :
  built id ty st temp = Some d -> device_type d = ty /\ observers d = [].
Proof.
  unfold built.
  destruct (decide (ty = "light")) as [->|]; [now intros [= <-]|].
  destruct (decide (ty = "thermostat")) as [->|]; [now intros [= <-]|].
  destruct (decide (ty = "door")) as [->|]; [now intros [= <-]|].
  discriminate.
Qed.

(** X1. A device type other than "light", "thermostat" and "door", with
    an identifier that is not registered: [create_device] raises
    [ValueError("Invalid device type")], and so does [add_device], which
    does not catch it.  Nothing was allocated, stored or printed: the
    state is the one before the call. *)
Theorem unknown_device_type_raises id ty st temp s :
  Dict.get id (devices s) = None ->
  ty <> "light" -> ty <> "thermostat" -> ty <> "door" ->
  SmartHomeHub.create_device id ty st temp s
    = (Raise (mk_exn ValueError "Invalid device type"), s) /\
  SmartHomeHub.add_device id ty st temp s
    = (Raise (mk_exn ValueError "Invalid device type"), s).
Proof.
  intros Hfresh H1 H2 H3.
  rewrite (create_device_fresh _ _ _ _ _ Hfresh),
          (add_device_fresh _ _ _ _ _ Hfresh).
  unfold built. rewrite !decide_False by assumption. split; reflexivity.
Qed.

Lemma unknown_device_type_raises_witness :
  SmartHomeHub.create_device (VInt 4) "toaster" (VStr "on") VNone hub_of_three
    = (Raise (mk_exn ValueError "Invalid device type"), hub_of_three) /\
  SmartHomeHub.add_device (VInt 4) "toaster" (VStr "on") VNone hub_of_three
    = (Raise (mk_exn ValueError "Invalid device type"), hub_of_three).
Proof.
  apply (unknown_device_type_raises (VInt 4) "toaster" (VStr "on") VNone
           hub_of_three eq_refl); discriminate.
Defined.

(** X2. Whatever the arguments and the state, [create_device] and
    [add_device] deliver no notification: the initial state is applied
    through the mutators, but the new device has no subscriber yet, and a
    duplicate or an unknown type builds nothing. *)
Theorem creation_notifies_nobody id ty st temp s o :
  delivered_to o (output (snd (SmartHomeHub.create_device id ty st temp s)))
    = delivered_to o (output s) /\
  delivered_to o (output (snd (SmartHomeHub.add_device id ty st temp s)))
    = delivered_to o (output s).
Proof.
  destruct (Dict.get id (devices s)) as [e|] eqn:Hget.
  - unfold SmartHomeHub.create_device, SmartHomeHub.add_device.
    rewrite !(bind_Return _ _ _ _ _ (contains_present _ _ _ Hget)).
    cbn. rewrite delivered_to_app. cbn. now rewrite app_nil_r.
  - rewrite (create_device_fresh _ _ _ _ _ Hget),
            (add_device_fresh _ _ _ _ _ Hget).
    destruct (built id ty st temp); cbn; [|auto].
    rewrite delivered_to_app. cbn. now rewrite app_nil_r.
Qed.

(** ** The hub's routing *)

Lemma hub_turn_on_routes id o s :
  Dict.get id (devices s) = Some o ->
  SmartHomeHub.turn_on id s = Obj.turn_on o s.
Proof.
  intros Hget. unfold SmartHomeHub.turn_on.
  rewrite (bind_Return _ _ _ _ _ (contains_present _ _ _ Hget)).
  cbn iota. unfold bind, SmartHomeHub.get_item. now rewrite Hget.
Qed.

Lemma hub_turn_off_routes id o s :
  Dict.get id (devices s) = Some o ->
  SmartHomeHub.turn_off id s = Obj.turn_off o s.
Proof.
  intros Hget. unfold SmartHomeHub.turn_off.
  rewrite (bind_Return _ _ _ _ _ (contains_present _ _ _ Hget)).
  cbn iota. unfold bind, SmartHomeHub.get_item. now rewrite Hget.
Qed.

(** A call on a stored device or on a proxy of it reaches the device. *)
Lemma obj_turn_on_behind o a s :
  behind s o = Some a -> Obj.turn_on o s = Call.turn_on a s.
Proof.
  destruct o as [|a'|p]; simpl; [discriminate | now intros [= ->] |].
  intros Hp. unfold DeviceProxy.turn_on.
  now rewrite (bind_Return _ _ _ _ _ (get_proxy_Some _ _ _ Hp)).
Qed.

Lemma obj_turn_off_behind o a s :
  behind s o = Some a -> Obj.turn_off o s = Call.turn_off a s.
Proof.
  destruct o as [|a'|p]; simpl; [discriminate | now intros [= ->] |].
  intros Hp. unfold DeviceProxy.turn_off.
  now rewrite (bind_Return _ _ _ _ _ (get_proxy_Some _ _ _ Hp)).
Qed.

Lemma call_turn_on_light a d st s :
  device_store s !! a = Some d ->
  variant_of d = Light st ->
  Call.turn_on a s = (Return tt, light_switched a d "on" "Light is turned on (on)" s).
Proof.
  intros Hd Hv. unfold Call.turn_on.
  rewrite (bind_Return _ _ _ _ _ (get_device_Some _ _ _ Hd)), Hv.
  eapply Light_turn_on_spec; eauto.
Qed.

Lemma call_turn_off_light a d st s :
  device_store s !! a = Some d ->
  variant_of d = Light st ->
  Call.turn_off a s = (Return tt, light_switched a d "off" "Light is turned off (off)" s).
Proof.
  intros Hd Hv. unfold Call.turn_off.
  rewrite (bind_Return _ _ _ _ _ (get_device_Some _ _ _ Hd)), Hv.
  eapply Light_turn_off_spec; eauto.
Qed.

Lemma obj_report_behind o a d s :
  behind s o = Some a ->
  device_store s !! a = Some d ->
  Obj.status_report o s = (Return (device_report d), s).
Proof.
  intros Hb Hd. rewrite obj_status_report_spec.
  destruct o as [|a'|p]; simpl in *; [discriminate | |].
  - injection Hb as ->. now rewrite Hd.
  - now rewrite Hb, Hd.
Qed.

(** X3. [turn_on(id)] and [turn_off(id)] with an identifier that is not
    registered print "Device with ID ... not found." and return; nothing
    but the output changes. *)
Theorem switching_unknown_id_is_reported id s :
  Dict.get id (devices s) = None ->
  SmartHomeHub.turn_on id s
    = (Return tt, printed ("Device with ID " +:+ str id +:+ " not found.") s) /\
  SmartHomeHub.turn_off id s
    = (Return tt, printed ("Device with ID " +:+ str id +:+ " not found.") s).
Proof.
  intros Hget. unfold SmartHomeHub.turn_on, SmartHomeHub.turn_off.
  rewrite !(bind_Return _ _ _ _ _ (contains_absent _ _ Hget)).
  split; reflexivity.
Qed.

Lemma switching_unknown_id_is_reported_witness :
  SmartHomeHub.turn_on (VInt 9) hub_of_three
    = (Return tt, printed "Device with ID 9 not found." hub_of_three) /\
  SmartHomeHub.turn_off (VInt 9) hub_of_three
    = (Return tt, printed "Device with ID 9 not found." hub_of_three).
Proof.
  exact (switching_unknown_id_is_reported (VInt 9) hub_of_three eq_refl).
Defined.

(** X4. [turn_on(id)] for a registered light, whether the dictionary
    holds the light itself (after [create_device]) or a proxy of it
    (after [add_device]): the light is switched on, every subscriber is
    notified in subscription order, and the report of the entry then says
    on; [turn_off(id)] likewise with off. *)
Theorem hub_switches_registered_light id o a d st s :
  Dict.get id (devices s) = Some o ->
  behind s o = Some a ->
  device_store s !! a = Some d ->
  variant_of d = Light st ->
  exists s_on s_off,
    SmartHomeHub.turn_on id s = (Return tt, s_on) /\
    s_on = light_switched a d "on" "Light is turned on (on)" s /\
    Obj.status_report o s_on
      = (Return ("Light " +:+ str (device_id d) +:+ " is on."), s_on) /\
    SmartHomeHub.turn_off id s = (Return tt, s_off) /\
    s_off = light_switched a d "off" "Light is turned off (off)" s /\
    Obj.status_report o s_off
      = (Return ("Light " +:+ str (device_id d) +:+ " is off."), s_off).
Proof.
  intros Hget Hb Hd Hv.
  assert (Hlt : a < length (device_store s)) by (eapply lookup_lt_Some; eauto).
  assert (Hb' : forall status message,
             behind (light_switched a d status message s) o = Some a)
    by (intros; destruct o; exact Hb).
  eexists _, _.
  split; [rewrite (hub_turn_on_routes _ _ _ Hget), (obj_turn_on_behind _ _ _ Hb);
          eapply call_turn_on_light; eauto|].
  split; [reflexivity|].
  split.
  { exact (obj_report_behind o a (with_variant (Light "on") d) _ (Hb' _ _)
             (lookup_after_put a _ s Hlt)). }
  split; [rewrite (hub_turn_off_routes _ _ _ Hget), (obj_turn_off_behind _ _ _ Hb);
          eapply call_turn_off_light; eauto|].
  split; [reflexivity|].
  exact (obj_report_behind o a (with_variant (Light "off") d) _ (Hb' _ _)
           (lookup_after_put a _ s Hlt)).
Qed.

Lemma hub_switches_registered_light_witness :
  exists s_on s_off,
    SmartHomeHub.turn_on (VInt 1) hub_with_light = (Return tt, s_on) /\
    output s_on = [Printed "Added new light with ID 1.";
                   Updated 4 "Light is turned on (on)"] /\
    Obj.status_report (OProxy 0) s_on = (Return "Light 1 is on.", s_on) /\
    SmartHomeHub.turn_off (VInt 1) hub_with_light = (Return tt, s_off) /\
    Obj.status_report (OProxy 0) s_off = (Return "Light 1 is off.", s_off).
Proof.
  destruct (hub_switches_registered_light (VInt 1) (OProxy 0) 0
              (mk_Device (VInt 1) "light" [4] (Light "on")) "on" hub_with_light
              eq_refl eq_refl eq_refl eq_refl)
    as (s_on & s_off & H1 & -> & H3 & H4 & -> & H6).
  eexists _, _. split; [exact H1|]. split; [reflexivity|].
  split; [exact H3|]. split; [exact H4 | exact H6].
Defined.

(** X5. [turn_on] and [turn_off] are forwarded without a look at the
    kind of device, by the hub and by a proxy alike: on a thermostat or a
    door lock the call raises [AttributeError] for the missing method and
    the state is as before. *)
Theorem switching_non_light_raises id o a d s :
  Dict.get id (devices s) = Some o ->
  behind s o = Some a ->
  device_store s !! a = Some d ->
  (forall st, variant_of d <> Light st) ->
  SmartHomeHub.turn_on id s = (Raise (no_attribute (class_name d) "turn_on"), s) /\
  SmartHomeHub.turn_off id s = (Raise (no_attribute (class_name d) "turn_off"), s) /\
  Obj.turn_on o s = (Raise (no_attribute (class_name d) "turn_on"), s) /\
  Obj.turn_off o s = (Raise (no_attribute (class_name d) "turn_off"), s).
Proof.
  intros Hget Hb Hd Hv.
  rewrite (hub_turn_on_routes _ _ _ Hget), (hub_turn_off_routes _ _ _ Hget),
          (obj_turn_on_behind _ _ _ Hb), (obj_turn_off_behind _ _ _ Hb).
  unfold Call.turn_on, Call.turn_off.
  rewrite !(bind_Return _ _ _ _ _ (get_device_Some _ _ _ Hd)).
  destruct (variant_of d) as [st| |] eqn:Hvar; [now destruct (Hv st) | |];
    repeat split.
Qed.

Lemma switching_non_light_raises_witness :
  SmartHomeHub.turn_on (VInt 2) hub_of_three
    = (Raise (mk_exn AttributeError "'Thermostat' object has no attribute 'turn_on'"),
       hub_of_three) /\
  SmartHomeHub.turn_off (VInt 2) hub_of_three
    = (Raise (mk_exn AttributeError "'Thermostat' object has no attribute 'turn_off'"),
       hub_of_three) /\
  DeviceProxy.turn_on 1 hub_of_three
    = (Raise (mk_exn AttributeError "'Thermostat' object has no attribute 'turn_on'"),
       hub_of_three) /\
  DeviceProxy.turn_off 1 hub_of_three
    = (Raise (mk_exn AttributeError "'Thermostat' object has no attribute 'turn_off'"),
       hub_of_three).
Proof.
  apply (switching_non_light_raises (VInt 2) (OProxy 1) 1
           (mk_Device (VInt 2) "thermostat" [] (Thermostat (VInt 70)))
           hub_of_three eq_refl eq_refl eq_refl).
  intros st. discriminate.
Defined.

(** X6. The proxy that [create_device] returns and the entry it stores
    in the dictionary are two ways to the same device object: after
    [turn_on(id)] on the hub the proxy reports the light on, and after
    [turn_off()] on the proxy the hub's entry reports it off. *)
Theorem created_proxy_shares_the_device id st temp s :
  Dict.get id (devices s) = None ->
  exists p e s1 s2 s3,
    SmartHomeHub.create_device id "light" st temp s = (Return (OProxy p), s1) /\
    Dict.get id (devices s1) = Some e /\
    SmartHomeHub.turn_on id s1 = (Return tt, s2) /\
    DeviceProxy.status_report p s2
      = (Return ("Light " +:+ str id +:+ " is on."), s2) /\
    DeviceProxy.turn_off p s2 = (Return tt, s3) /\
    Obj.status_report e s3 = (Return ("Light " +:+ str id +:+ " is off."), s3).
Proof.
  intros Hfresh.
  set (d := mk_Device id "light" [] (Light "off")).
  set (n := length (device_store s)).
  set (s1 := registered id d s).
  assert (Hd1 : device_store s1 !! n = Some d) by apply lookup_snoc_last.
  assert (Hp1 : proxy_store s1 !! length (proxy_store s) = Some n)
    by apply lookup_snoc_last.
  assert (Hget : Dict.get id (devices s1) = Some (ODevice n)) by apply get_set_eq.
  assert (Hlt : n < length (device_store s1)) by (eapply lookup_lt_Some; eauto).
  set (s2 := light_switched n d "on" "Light is turned on (on)" s1).
  set (d2 := with_variant (Light "on") d).
  assert (Hd2 : device_store s2 !! n = Some d2) by (now apply lookup_after_put).
  set (s3 := light_switched n d2 "off" "Light is turned off (off)" s2).
  exists (length (proxy_store s)), (ODevice n), s1, s2, s3.
  split; [now rewrite (create_device_fresh _ _ _ _ _ Hfresh)|].
  split; [exact Hget|].
  split.
  { rewrite (hub_turn_on_routes _ _ _ Hget). simpl.
    eapply call_turn_on_light; eauto. }
  split.
  { exact (obj_report_behind (OProxy (length (proxy_store s))) n d2 s2 Hp1 Hd2). }
  split.
  { unfold DeviceProxy.turn_off.
    rewrite (bind_Return _ _ _ _ _ (get_proxy_Some _ _ s2 Hp1)).
    eapply call_turn_off_light; eauto. }
  apply (obj_report_behind (ODevice n) n (with_variant (Light "off") d2) s3 eq_refl).
  apply lookup_after_put. eapply lookup_lt_Some; eauto.
Qed.

Lemma created_proxy_shares_the_device_witness :
  exists p e s1 s2 s3,
    SmartHomeHub.create_device (VInt 1) "light" VNone VNone new_hub
      = (Return (OProxy p), s1) /\
    Dict.get (VInt 1) (devices s1) = Some e /\
    SmartHomeHub.turn_on (VInt 1) s1 = (Return tt, s2) /\
    DeviceProxy.status_report p s2 = (Return "Light 1 is on.", s2) /\
    DeviceProxy.turn_off p s2 = (Return tt, s3) /\
    Obj.status_report e s3 = (Return "Light 1 is off.", s3).
Proof.
  exact (created_proxy_shares_the_device (VInt 1) VNone VNone new_hub eq_refl).
Defined.

(** ** Registration order and removal *)

Lemma all_reports_snoc ds ps l k o rs r :
  all_reports ds ps l = Return rs ->
  obj_report ds ps o = Return r ->
  all_reports ds ps (l ++ [(k, o)]) = Return (rs ++ [r]).
Proof.
  revert rs. induction l as [|[k0 o0] l IH]; intros rs; simpl.
  - intros [= <-] ->. reflexivity.
  - destruct (obj_report ds ps o0) as [r0| |]; [|discriminate..].
    destruct (all_reports ds ps l) as [rs0| |]; [|discriminate..].
    intros [= <-] Hr. now rewrite (IH rs0 eq_refl Hr).
Qed.

(** Reports that were returned are not affected by later allocations. *)
Lemma obj_report_grows ds ps ds' ps' o r :
  obj_report ds ps o = Return r ->
  obj_report (ds ++ ds') (ps ++ ps') o = Return r.
Proof.
  destruct o as [|a|p]; simpl; [discriminate | |].
  - destruct (ds !! a) as [d|] eqn:Hd; [|discriminate].
    now rewrite (lookup_app_l_Some _ _ _ _ Hd).
  - destruct (ps !! p) as [a|] eqn:Hp; [|discriminate].
    destruct (ds !! a) as [d|] eqn:Hd; [|discriminate].
    now rewrite (lookup_app_l_Some _ _ _ _ Hp), (lookup_app_l_Some _ _ _ _ Hd).
Qed.

Lemma all_reports_grows ds ps ds' ps' l rs :
  all_reports ds ps l = Return rs ->
  all_reports (ds ++ ds') (ps ++ ps') l = Return rs.
Proof.
  revert rs. induction l as [|[k o] l IH]; intros rs; simpl; [auto|].
  destruct (obj_report ds ps o) as [r| |] eqn:Hr; [|discriminate..].
  destruct (all_reports ds ps l) as [rs0| |]; [|discriminate..].
  intros [= <-]. now rewrite (obj_report_grows _ _ _ _ _ _ Hr), (IH rs0 eq_refl).
Qed.

(** X7. [add_device] with a new identifier and a known type puts the
    identifier last in the dictionary and leaves the other entries where
    they are, so the hub's [status_report()] afterwards is the list of
    reports it returned before, followed by the report of the new device
    in its initial state. *)
Theorem add_device_reports_last id ty st temp d rs s :
  Dict.get id (devices s) = None ->
  built id ty st temp = Some d ->
  fst (SmartHomeHub.reports (devices s) s) = Return rs ->
  exists s',
    SmartHomeHub.add_device id ty st temp s = (Return tt, s') /\
    Dict.keys (devices s') = Dict.keys (devices s) ++ [id] /\
    SmartHomeHub.status_report s'
      = (Return (String.concat " " (rs ++ [device_report d])), s').
Proof.
  intros Hfresh Hbuilt Hrs. rewrite reports_spec in Hrs. cbn [fst] in Hrs.
  rewrite (add_device_fresh _ _ _ _ _ Hfresh), Hbuilt.
  eexists. split; [reflexivity|].
  cbn [devices printed with_output with_devices registered].
  rewrite set_set, (set_absent _ _ _ Hfresh).
  split; [unfold Dict.keys; now rewrite fmap_app|].
  rewrite status_report_spec.
  cbn [devices device_store proxy_store printed with_output with_devices
       registered].
  rewrite ?set_set, ?(set_absent _ _ _ Hfresh).
  erewrite all_reports_snoc; [reflexivity | now apply all_reports_grows |].
  cbn [obj_report]. now rewrite !lookup_snoc_last.
Qed.

Lemma add_device_reports_last_witness :
  exists s',
    SmartHomeHub.add_device (VInt 4) "door" (VStr "unlocked") VNone hub_of_three
      = (Return tt, s') /\
    Dict.keys (devices s') = [VInt 1; VInt 2; VInt 3; VInt 4] /\
    SmartHomeHub.status_report s'
      = (Return "Light 1 is off. Thermostat is set to 70 degrees. Door is locked. Door is unlocked.",
         s').
Proof.
  exact (add_device_reports_last (VInt 4) "door" (VStr "unlocked") VNone
           (mk_Device (VInt 4) "door" [] (DoorLock "unlocked"))
           ["Light 1 is off."; "Thermostat is set to 70 degrees."; "Door is locked."]
           hub_of_three eq_refl eq_refl eq_refl).
Defined.

(** X8. A device made with [create_device] and removed again: the
    dictionary holds the device itself, so [remove_device] finds
    [device_type], prints "Removed ... with ID ..." and returns, and the
    dictionary is as it was before the device was made.  The device
    object is not destroyed: the proxy handed out by [create_device]
    still reports it. *)
Theorem create_then_remove id ty st temp d s :
  Dict.get id (devices s) = None ->
  built id ty st temp = Some d ->
  exists p s1 s2,
    SmartHomeHub.create_device id ty st temp s = (Return (OProxy p), s1) /\
    SmartHomeHub.remove_device id s1 = (Return tt, s2) /\
    s2 = printed ("Removed " +:+ ty +:+ " with ID " +:+ str id +:+ ".")
           (with_devices (devices s) s1) /\
    DeviceProxy.status_report p s2 = (Return (device_report d), s2).
Proof.
  intros Hfresh Hbuilt.
  destruct (built_device_type _ _ _ _ _ Hbuilt) as [Hty _].
  set (s1 := registered id d s).
  assert (Hget : Dict.get id (devices s1) = Some (ODevice (length (device_store s))))
    by apply get_set_eq.
  eexists (length (proxy_store s)), s1, _.
  split; [now rewrite (create_device_fresh _ _ _ _ _ Hfresh), Hbuilt|].
  split.
  { unfold SmartHomeHub.remove_device.
    rewrite (bind_Return _ _ _ _ _ (contains_present _ _ _ Hget)).
    cbn iota. unfold bind at 1. unfold SmartHomeHub.get_item at 1. rewrite Hget.
    unfold bind at 1. unfold SmartHomeHub.del_item at 1.
    unfold bind at 1. unfold Obj.get_device_type, bind at 1, get_device at 1.
    cbn [device_store with_devices s1 registered]. rewrite lookup_snoc_last.
    unfold ret at 1. rewrite Hty. reflexivity. }
  split.
  { cbn [devices s1 registered]. now rewrite (del_set_absent _ _ _ Hfresh). }
  apply (obj_report_behind (OProxy _) (length (device_store s)) d);
    cbn; apply lookup_snoc_last.
Qed.

Lemma create_then_remove_witness :
  exists p s1 s2,
    SmartHomeHub.create_device (VInt 4) "thermostat" VNone (VInt 64) hub_of_three
      = (Return (OProxy p), s1) /\
    SmartHomeHub.remove_device (VInt 4) s1 = (Return tt, s2) /\
    s2 = printed "Removed thermostat with ID 4."
           (with_devices (devices hub_of_three) s1) /\
    DeviceProxy.status_report p s2
      = (Return "Thermostat is set to 64 degrees.", s2).
Proof.
  exact (create_then_remove (VInt 4) "thermostat" VNone (VInt 64)
           (mk_Device (VInt 4) "thermostat" [] (Thermostat (VInt 64)))
           hub_of_three eq_refl eq_refl).
Defined.

(** X9. An identifier that was removed can be registered again, and it
    is then last in the order of the dictionary, whatever its place was
    before. *)
Theorem removed_id_can_be_registered_again id o ty st temp d s :
  NoDup (Dict.keys (devices s)) ->
  Dict.get id (devices s) = Some o ->
  built id ty st temp = Some d ->
  exists out s1 s2,
    SmartHomeHub.remove_device id s = (out, s1) /\
    SmartHomeHub.add_device id ty st temp s1 = (Return tt, s2) /\
    Dict.keys (devices s2) = Dict.keys (Dict.del id (devices s)) ++ [id] /\
    exists p, Dict.get id (devices s2) = Some (OProxy p).
Proof.
  intros Hnd Hget Hbuilt.
  destruct (remove_device_present _ _ _ Hget)
    as (out & s1 & Hrun & Hdev & _).
  assert (Hfresh : Dict.get id (devices s1) = None)
    by (rewrite Hdev; now apply get_del_eq).
  exists out, s1. eexists. split; [exact Hrun|].
  rewrite (add_device_fresh _ _ _ _ _ Hfresh), Hbuilt.
  split; [reflexivity|].
  cbn [devices printed with_output with_devices registered].
  rewrite set_set, (set_absent _ _ _ Hfresh), Hdev.
  split.
  - unfold Dict.keys. now rewrite fmap_app.
  - eexists. rewrite <- Hdev, <- (set_absent _ _ _ Hfresh). apply get_set_eq.
Qed.

Lemma removed_id_can_be_registered_again_witness :
  exists out s1 s2,
    SmartHomeHub.remove_device (VInt 1) hub_of_three = (out, s1) /\
    SmartHomeHub.add_device (VInt 1) "light" VNone VNone s1 = (Return tt, s2) /\
    Dict.keys (devices s2) = [VInt 2; VInt 3; VInt 1] /\
    exists p, Dict.get (VInt 1) (devices s2) = Some (OProxy p).
Proof.
  exact (removed_id_can_be_registered_again (VInt 1) (OProxy 0) "light" VNone
           VNone (mk_Device (VInt 1) "light" [] (Light "off")) hub_of_three
           hub_of_three_keys eq_refl eq_refl).
Defined.

(** ** Thermostats and door locks behind a proxy *)

(** X10. On a proxy of a thermostat [set_temperature(value)] stores the
    value as it is given (an integer, a string and [None] alike: nothing
    is checked), notifies every subscriber in subscription order, and the
    report read through the proxy afterwards shows that value. *)
Theorem proxy_sets_temperature p a d t0 t s :
  proxy_store s !! p = Some a ->
  device_store s !! a = Some d ->
  variant_of d = Thermostat t0 ->
  exists s',
    DeviceProxy.set_temperature p t s = (Return tt, s') /\
    device_store s' !! a = Some (with_variant (Thermostat t) d) /\
    output s' = output s ++
      map (fun o => Updated o ("Thermostat temperature set to " +:+ str t +:+ " degrees"))
          (observers d) /\
    DeviceProxy.status_report p s'
      = (Return ("Thermostat is set to " +:+ str t +:+ " degrees."), s').
Proof.
  intros Hp Hd Hv.
  assert (Hlt : a < length (device_store s)) by (eapply lookup_lt_Some; eauto).
  eexists. split.
  { unfold DeviceProxy.set_temperature.
    rewrite (bind_Return _ _ _ _ _ (get_proxy_Some _ _ _ Hp)),
            (bind_Return _ _ _ _ _ (get_device_Some _ _ _ Hd)).
    unfold Call.isinstance_Thermostat. rewrite Hv.
    eapply set_temperature_spec; eauto. }
  split; [now apply lookup_after_put|]. split; [reflexivity|].
  apply (obj_report_behind (OProxy p) a (with_variant (Thermostat t) d));
    [exact Hp | now apply lookup_after_put].
Qed.

Lemma proxy_sets_temperature_witness :
  exists s',
    DeviceProxy.set_temperature 1 (VInt (-300)) watched_hub = (Return tt, s') /\
    device_store s' !! 1
      = Some (mk_Device (VInt 2) "thermostat" [5; 6] (Thermostat (VInt (-300)))) /\
    output s' = [Updated 5 "Thermostat temperature set to -300 degrees";
                 Updated 6 "Thermostat temperature set to -300 degrees"] /\
    DeviceProxy.status_report 1 s'
      = (Return "Thermostat is set to -300 degrees.", s').
Proof.
  exact (proxy_sets_temperature 1 1
           (mk_Device (VInt 2) "thermostat" [5; 6] (Thermostat (VInt 70)))
           (VInt 70) (VInt (-300)) watched_hub eq_refl eq_refl eq_refl).
Defined.

(** X11. On a proxy of a door lock, [lock()] and [unlock()] set the
    status, notify every subscriber in subscription order with "Door is
    locked" or "Door is unlocked", also when the door was in that state
    already, and the report read through the proxy shows the new state. *)
Theorem proxy_locks_and_unlocks p a d st s :
  proxy_store s !! p = Some a ->
  device_store s !! a = Some d ->
  variant_of d = DoorLock st ->
  exists s_locked s_unlocked,
    DeviceProxy.lock p s = (Return tt, s_locked) /\
    output s_locked
      = output s ++ map (fun o => Updated o "Door is locked") (observers d) /\
    DeviceProxy.status_report p s_locked = (Return "Door is locked.", s_locked) /\
    DeviceProxy.unlock p s = (Return tt, s_unlocked) /\
    output s_unlocked
      = output s ++ map (fun o => Updated o "Door is unlocked") (observers d) /\
    DeviceProxy.status_report p s_unlocked
      = (Return "Door is unlocked.", s_unlocked).
Proof.
  intros Hp Hd Hv.
  assert (Hlt : a < length (device_store s)) by (eapply lookup_lt_Some; eauto).
  eexists _, _. split.
  { unfold DeviceProxy.lock.
    rewrite (bind_Return _ _ _ _ _ (get_proxy_Some _ _ _ Hp)),
            (bind_Return _ _ _ _ _ (get_device_Some _ _ _ Hd)).
    unfold Call.isinstance_DoorLock. rewrite Hv.
    eapply lock_spec; eauto. }
  split; [reflexivity|].
  split.
  { apply (obj_report_behind (OProxy p) a (with_variant (DoorLock "locked") d));
      [exact Hp | now apply lookup_after_put]. }
  split.
  { unfold DeviceProxy.unlock.
    rewrite (bind_Return _ _ _ _ _ (get_proxy_Some _ _ _ Hp)),
            (bind_Return _ _ _ _ _ (get_device_Some _ _ _ Hd)).
    unfold Call.isinstance_DoorLock. rewrite Hv.
    eapply unlock_spec; eauto. }
  split; [reflexivity|].
  apply (obj_report_behind (OProxy p) a (with_variant (DoorLock "unlocked") d));
    [exact Hp | now apply lookup_after_put].
Qed.

Lemma proxy_locks_and_unlocks_witness :
  exists s_locked s_unlocked,
    DeviceProxy.lock 2 watched_hub = (Return tt, s_locked) /\
    output s_locked = [Updated 8 "Door is locked"] /\
    DeviceProxy.status_report 2 s_locked = (Return "Door is locked.", s_locked) /\
    DeviceProxy.unlock 2 watched_hub = (Return tt, s_unlocked) /\
    output s_unlocked = [Updated 8 "Door is unlocked"] /\
    DeviceProxy.status_report 2 s_unlocked
      = (Return "Door is unlocked.", s_unlocked).
Proof.
  exact (proxy_locks_and_unlocks 2 2
           (mk_Device (VInt 3) "door" [8] (DoorLock "locked")) "locked"
           watched_hub eq_refl eq_refl eq_refl).
Defined.

(** ** Subscribing and unsubscribing *)

Lemma list_remove_split o l :
  o ∈ l ->
  exists l1 l2,
    l = l1 ++ o :: l2 /\ (o ∉ l1) /\ Device.list_remove o l = l1 ++ l2.
Proof.
  induction l as [|x l IH]; [intros H; inversion H|].
  intros Hin. simpl. destruct (decide (x = o)) as [->|Hne].
  - exists [], l. repeat split. apply not_elem_of_nil.
  - apply elem_of_cons in Hin as [->|Hin]; [now destruct Hne|].
    destruct (IH Hin) as (l1 & l2 & -> & Hnot & ->).
    exists (x :: l1), l2. repeat split.
    apply not_elem_of_cons. split; [congruence | exact Hnot].
Qed.

Lemma list_remove_snoc o l :
  o ∉ l -> Device.list_remove o (l ++ [o]) = l.
Proof.
  induction l as [|x l IH]; simpl; intros Hnot.
  - now rewrite decide_True.
  - apply not_elem_of_cons in Hnot as [Hne Hnot].
    rewrite decide_False by congruence. now rewrite IH.
Qed.

Lemma subscriptions_app o l1 l2 :
  subscriptions o (l1 ++ l2) = subscriptions o l1 + subscriptions o l2.
Proof. unfold subscriptions. now rewrite filter_app, length_app. Qed.

Lemma add_observer_spec a d o s :
  device_store s !! a = Some d ->
  Device.add_observer a o s =
  (Return tt,
   with_device_store (<[a := with_observers (observers d ++ [o]) d]> (device_store s)) s).
Proof.
  intros Hd. unfold Device.add_observer.
  now rewrite (bind_Return _ _ _ _ _ (get_device_Some _ _ _ Hd)).
Qed.

(** X12. [add_observer] does not look for duplicates and puts the
    observer last: when the light is switched on afterwards, the earlier
    subscribers are notified first, then the new one, and an observer
    that was subscribed [n] times before receives [n + 1] messages. *)
Theorem new_subscriber_is_notified_last a d st o s :
  device_store s !! a = Some d ->
  variant_of d = Light st ->
  exists s1 s2,
    Device.add_observer a o s = (Return tt, s1) /\
    Call.turn_on a s1 = (Return tt, s2) /\
    output s2 = output s
                  ++ map (fun x => Updated x "Light is turned on (on)") (observers d)
                  ++ [Updated o "Light is turned on (on)"] /\
    delivered_to o (output s2)
      = delivered_to o (output s)
          ++ replicate (S (subscriptions o (observers d))) "Light is turned on (on)".
Proof.
  intros Hd Hv.
  assert (Hlt : a < length (device_store s)) by (eapply lookup_lt_Some; eauto).
  set (d1 := with_observers (observers d ++ [o]) d).
  set (s1 := with_device_store (<[a := d1]> (device_store s)) s).
  assert (Hd1 : device_store s1 !! a = Some d1) by (now apply lookup_after_put).
  assert (Hout : output (light_switched a d1 "on" "Light is turned on (on)" s1)
                 = output s
                     ++ map (fun x => Updated x "Light is turned on (on)") (observers d)
                     ++ [Updated o "Light is turned on (on)"])
    by (cbn; now rewrite map_app).
  eexists s1, _.
  split; [now apply add_observer_spec|].
  split; [eapply call_turn_on_light; [exact Hd1 | exact Hv]|].
  split; [exact Hout|].
  rewrite Hout, !delivered_to_app, delivered_to_map. cbn [delivered_to].
  rewrite decide_True by reflexivity.
  replace (S (subscriptions o (observers d)))
    with (subscriptions o (observers d) + 1) by lia.
  now rewrite replicate_add.
Qed.

Lemma new_subscriber_is_notified_last_witness :
  exists s1 s2,
    Device.add_observer 0 4 lone_light = (Return tt, s1) /\
    Call.turn_on 0 s1 = (Return tt, s2) /\
    output s2 = [Updated 4 "Light is turned on (on)";
                 Updated 9 "Light is turned on (on)";
                 Updated 4 "Light is turned on (on)";
                 Updated 4 "Light is turned on (on)"] /\
    delivered_to 4 (output s2)
      = ["Light is turned on (on)"; "Light is turned on (on)";
         "Light is turned on (on)"].
Proof.
  exact (new_subscriber_is_notified_last 0 sample_light "off" 4 lone_light
           eq_refl eq_refl).
Defined.

(** X13. [remove_observer] with an observer that is subscribed takes
    out its first subscription only: the other entries keep their order,
    the observer has one subscription fewer, and every other observer has
    as many as before. *)
Theorem remove_observer_drops_first_subscription a d o s :
  device_store s !! a = Some d ->
  o ∈ observers d ->
  exists l1 l2 s',
    observers d = l1 ++ o :: l2 /\
    (o ∉ l1) /\
    Device.remove_observer a o s = (Return tt, s') /\
    s' = with_device_store
           (<[a := with_observers (l1 ++ l2) d]> (device_store s)) s /\
    S (subscriptions o (l1 ++ l2)) = subscriptions o (observers d) /\
    forall o', o' <> o ->
      subscriptions o' (l1 ++ l2) = subscriptions o' (observers d).
Proof.
  intros Hd Hin.
  destruct (list_remove_split _ _ Hin) as (l1 & l2 & Hl & Hnot & Hrem).
  exists l1, l2. eexists. split; [exact Hl|]. split; [exact Hnot|].
  split.
  { unfold Device.remove_observer.
    rewrite (bind_Return _ _ _ _ _ (get_device_Some _ _ _ Hd)).
    rewrite decide_True by assumption. rewrite Hrem. reflexivity. }
  split; [reflexivity|].
  split.
  - rewrite Hl, !subscriptions_app. unfold subscriptions.
    rewrite filter_cons, decide_True by reflexivity. simpl. lia.
  - intros o' Hne. rewrite Hl, !subscriptions_app. unfold subscriptions.
    rewrite filter_cons, decide_False by congruence. reflexivity.
Qed.

Lemma four_is_subscribed : 4 ∈ observers sample_light.
Proof. apply (bool_decide_unpack _). vm_compute. reflexivity. Qed.

Lemma remove_observer_drops_first_subscription_witness :
  exists l1 l2 s',
    observers sample_light = l1 ++ 4 :: l2 /\
    (4 ∉ l1) /\
    Device.remove_observer 0 4 lone_light = (Return tt, s') /\
    s' = with_device_store
           (<[0 := with_observers (l1 ++ l2) sample_light]> (device_store lone_light))
           lone_light /\
    S (subscriptions 4 (l1 ++ l2)) = 2.
Proof.
  destruct (remove_observer_drops_first_subscription 0 sample_light 4 lone_light
              eq_refl four_is_subscribed)
    as (l1 & l2 & s' & H1 & H2 & H3 & H4 & H5 & _).
  exists l1, l2, s'. auto.
Defined.

(** X14. Subscribing an observer that was not subscribed and then
    unsubscribing it leaves the program state exactly as it was. *)
Theorem subscribe_then_unsubscribe a d o s :
  device_store s !! a = Some d ->
  o ∉ observers d ->
  exists s1,
    Device.add_observer a o s = (Return tt, s1) /\
    Device.remove_observer a o s1 = (Return tt, s).
Proof.
  intros Hd Hnot.
  assert (Hlt : a < length (device_store s)) by (eapply lookup_lt_Some; eauto).
  set (d1 := with_observers (observers d ++ [o]) d).
  set (s1 := with_device_store (<[a := d1]> (device_store s)) s).
  assert (Hd1 : device_store s1 !! a = Some d1) by (now apply lookup_after_put).
  exists s1. split; [now apply add_observer_spec|].
  unfold Device.remove_observer.
  rewrite (bind_Return _ _ _ _ _ (get_device_Some _ _ _ Hd1)).
  rewrite decide_True by (cbn; apply elem_of_app; right; now left).
  cbn [d1 observers with_observers]. rewrite (list_remove_snoc _ _ Hnot).
  unfold put_device. cbn [s1 device_store with_device_store].
  rewrite list_insert_insert_eq.
  assert (Hsame : with_observers (observers d)
                    (with_observers (observers d ++ [o]) d) = d)
    by (now destruct d).
  subst d1 s1. rewrite Hsame, (list_insert_id _ _ _ Hd). now destruct s.
Qed.

Lemma subscribe_then_unsubscribe_witness :
  exists s1,
    Device.add_observer 0 7 lone_light = (Return tt, s1) /\
    Device.remove_observer 0 7 s1 = (Return tt, lone_light).
Proof.
  exact (subscribe_then_unsubscribe 0 sample_light 7 lone_light eq_refl
           seven_not_subscribed).
Defined.

(** ** What sequences of calls keep *)














(** ** More on the scheduler *)

(** The [for] loop steps over tasks that are not due without evaluating
    anything. *)
Lemma for_tasks_skip py_eval current_time before :
  forall pre rest fuel s,
    scheduled_tasks s = pre ++ before ++ rest ->
    Forall (fun t => task_time t <> current_time) before ->
    SmartHomeHub.for_tasks py_eval (length before + fuel) (length pre) current_time s
    = SmartHomeHub.for_tasks py_eval fuel (length pre + length before) current_time s.
Proof.
  induction before as [|t before IH]; intros pre rest fuel s Htasks Hnot.
  - simpl. now rewrite Nat.add_0_r.
  - apply Forall_cons in Hnot as [Ht Hnot].
    assert (Hlook : scheduled_tasks s !! length pre = Some t)
      by (rewrite Htasks; now apply (list_lookup_middle pre (before ++ rest))).
    cbn [length Nat.add SmartHomeHub.for_tasks].
    rewrite Hlook, decide_False by exact Ht.
    specialize (IH (pre ++ [t]) rest fuel s).
    rewrite length_app in IH. cbn [length] in IH.
    replace (length pre + 1) with (S (length pre)) in IH by lia.
    rewrite IH; [f_equal; lia | now rewrite <- app_assoc | exact Hnot].
Qed.

(** X17. While no reading of the clock is the time of a stored task,
    the scheduler evaluates nothing and changes nothing, whatever the
    commands of the tasks are: after any number of such passes the state
    is the one it started from. *)
Theorem idle_passes_change_nothing py_eval fuel clock s :
  Forall (fun current_time =>
            Forall (fun t => task_time t <> current_time) (scheduled_tasks s))
         clock ->
  length (scheduled_tasks s) < fuel ->
  SmartHomeHub.run_scheduled_tasks py_eval fuel clock s = Some (Return tt, s).
Proof.
  intros Hidle Hfuel. induction Hidle as [|now later Hnow _ IH]; [reflexivity|].
  cbn [SmartHomeHub.run_scheduled_tasks].
  replace fuel
    with (length (scheduled_tasks s) + S (fuel - length (scheduled_tasks s) - 1))
    by lia.
  rewrite (for_tasks_skip py_eval now (scheduled_tasks s) [] [] _ s);
    [ | now rewrite app_nil_r | exact Hnow ].
  cbn [SmartHomeHub.for_tasks length Nat.add].
  rewrite (lookup_ge_None_2 (scheduled_tasks s)) by lia.
  replace (length (scheduled_tasks s) + S (fuel - length (scheduled_tasks s) - 1))
    with fuel by lia.
  exact IH.
Qed.

Lemma idle_clock :
  Forall (fun current_time =>
            Forall (fun t => task_time t <> current_time)
                   (scheduled_tasks hub_with_exit_task))
         ["05:58"; "05:59"].
Proof. apply (bool_decide_unpack _). vm_compute. reflexivity. Qed.

Lemma idle_passes_change_nothing_witness :
  SmartHomeHub.run_scheduled_tasks exit_eval 4 ["05:58"; "05:59"] hub_with_exit_task
  = Some (Return tt, hub_with_exit_task).
Proof.
  apply (idle_passes_change_nothing exit_eval 4 ["05:58"; "05:59"]
           hub_with_exit_task idle_clock).
  cbn. lia.
Defined.

(** X18. [except Exception] does not catch what derives from
    [BaseException] only.  When the first task that is due on a pass has
    a command whose evaluation raises such an exception ([SystemExit],
    [KeyboardInterrupt]), the exception leaves [execute_command], the
    [for] loop and the [while] loop: the scheduler ends there, in the
    state the evaluation left, and neither the later tasks of this pass
    nor any later pass is run. *)
Theorem base_exception_ends_the_scheduler
    py_eval fuel current_time later before t rest e s s' :
  scheduled_tasks s = before ++ t :: rest ->
  Forall (fun x => task_time x <> current_time) before ->
  task_time t = current_time ->
  py_eval ("self." +:+ task_action t) s = (Raise e, s') ->
  is_Exception e = false ->
  length before < fuel ->
  SmartHomeHub.execute_command py_eval (task_action t) s = (Raise e, s') /\
  SmartHomeHub.run_scheduled_tasks py_eval fuel (current_time :: later) s
    = Some (Raise e, s').
Proof.
  intros Htasks Hnot Hdue Heval Hbase Hfuel.
  assert (Hcmd : SmartHomeHub.execute_command py_eval (task_action t) s
                 = (Raise e, s')).
  { unfold SmartHomeHub.execute_command. now rewrite Heval, Hbase. }
  split; [exact Hcmd|].
  cbn [SmartHomeHub.run_scheduled_tasks].
  replace fuel with (length before + S (fuel - length before - 1)) by lia.
  rewrite (for_tasks_skip py_eval current_time before [] (t :: rest) _ s Htasks Hnot).
  assert (Hlook : scheduled_tasks s !! length before = Some t)
    by (rewrite Htasks; now apply list_lookup_middle).
  cbn [SmartHomeHub.for_tasks length Nat.add].
  rewrite Hlook, decide_True by exact Hdue.
  now rewrite Hcmd.
Qed.

Lemma first_task_is_later :
  Forall (fun x => task_time x <> "06:00") [mk_task (VInt 1) "07:30" "turn_off(1)"].
Proof. apply (bool_decide_unpack _). vm_compute. reflexivity. Qed.

Lemma base_exception_ends_the_scheduler_witness :
  SmartHomeHub.execute_command exit_eval "turn_on(exit())" hub_with_exit_task
    = (Raise (mk_exn SystemExit ""), hub_with_exit_task) /\
  SmartHomeHub.run_scheduled_tasks exit_eval 4 ["06:00"; "06:01"] hub_with_exit_task
    = Some (Raise (mk_exn SystemExit ""), hub_with_exit_task).
Proof.
  apply (base_exception_ends_the_scheduler exit_eval 4 "06:00" ["06:01"]
           [mk_task (VInt 1) "07:30" "turn_off(1)"]
           (mk_task (VInt 1) "06:00" "turn_on(exit())")
           [mk_task (VInt 1) "06:00" "turn_on(1)"]
           (mk_exn SystemExit "") hub_with_exit_task hub_with_exit_task
           eq_refl first_task_is_later eq_refl eq_refl eq_refl).
  cbn. lia.
Defined.

(** ** Initial states that are not applied *)

(** X20. [create_device] applies an initial state only where it can:
    a door lock created with any [initial_status] other than "unlocked"
    (none, the empty string, "open", a number) is locked, and a
    thermostat created without [initial_temperature] is at 70, whatever
    [initial_status] says.  No error is reported for the argument that
    was not used. *)
Theorem unused_initial_state_falls_back id st temp s :
  Dict.get id (devices s) = None ->
  (st <> VStr "unlocked" ->
   exists p s',
     SmartHomeHub.create_device id "door" st temp s = (Return (OProxy p), s') /\
     output s' = output s /\
     DeviceProxy.status_report p s' = (Return "Door is locked.", s')) /\
  (exists p s',
     SmartHomeHub.create_device id "thermostat" st VNone s
       = (Return (OProxy p), s') /\
     output s' = output s /\
     DeviceProxy.status_report p s'
       = (Return "Thermostat is set to 70 degrees.", s')).
Proof.
  intros Hfresh. split; [intros Hst|];
    eexists (length (proxy_store s)), _;
    (split; [rewrite (create_device_fresh _ _ _ _ _ Hfresh); reflexivity|]);
    (split; [reflexivity|]).
  - apply (obj_report_behind (OProxy _) (length (device_store s))
             (mk_Device id "door" [] (DoorLock "locked")));
      cbn; [apply lookup_snoc_last|].
    rewrite decide_False by exact Hst. apply lookup_snoc_last.
  - apply (obj_report_behind (OProxy _) (length (device_store s))
             (mk_Device id "thermostat" [] (Thermostat (VInt 70))));
      cbn; apply lookup_snoc_last.
Qed.

Lemma unused_initial_state_falls_back_witness :
  (exists p s',
     SmartHomeHub.create_device (VInt 3) "door" (VStr "") VNone new_hub
       = (Return (OProxy p), s') /\
     output s' = [] /\
     DeviceProxy.status_report p s' = (Return "Door is locked.", s')) /\
  (exists p s',
     SmartHomeHub.create_device (VInt 3) "thermostat" (VStr "") VNone new_hub
       = (Return (OProxy p), s') /\
     output s' = [] /\
     DeviceProxy.status_report p s'
       = (Return "Thermostat is set to 70 degrees.", s')).
Proof.
  destruct (unused_initial_state_falls_back (VInt 3) (VStr "") VNone new_hub
              eq_refl) as [Hdoor Hthermostat].
  split; [apply Hdoor; discriminate | exact Hthermostat].
Defined.

(** ** The scheduler on command texts *)


(** The loops of the scheduler against [pass] and [passes], for any
    evaluator that leaves the list of tasks alone on the commands of the
    stored tasks. *)
Section PassFacts.
Variable py_eval : string -> M unit.
Variable stored : list task.
Hypothesis kept :
  forall t, t ∈ stored ->
  forall s, scheduled_tasks (snd (py_eval ("self." +:+ task_action t) s))
            = scheduled_tasks s.



End PassFacts.

(** *** What a method call from a command can come to *)














(** *** What the evaluation of a command can come to *)











(** ** What sequences of calls keep *)










Lemma sample_calls_report :
  SmartHomeHub.status_report (after_calls sample_calls new_hub)
  = (Return "Thermostat is set to 64 degrees. Door is unlocked.",
     after_calls sample_calls new_hub).
Proof. vm_compute. reflexivity. Qed.




